(** * Wallets: the client-side wallet accessor of BitGoJS (src/wallets.js)

    A shallow embedding of [Wallets.prototype.getShare], [acceptShare],
    [createWalletWithKeychains] and [add], and the properties of the
    wallet-provisioning and share-acceptance workflows that follow from
    the code.

    The file is JavaScript: values are dynamically typed, property access
    on [undefined] throws, and conditions go through truthiness.  The
    embedding keeps all three.  A promise chain [p.then(f).then(g)] is the
    sequential composition of fallible steps: a rejection (or an exception
    thrown inside a callback) skips every later [then].  An exception
    thrown before the chain starts and a rejected promise are both the
    outcome [Throw]; the optional node-style [callback] that [nodeify]
    serves receives that same outcome and is left out.

    Each run records, in order, the calls it makes on the service and the
    steps it performs on key material, so that "what was sent" and "what
    happened before what" are statements about a list. *)

From Stdlib Require Import String Ascii ZArith List Bool Lia DecimalString.
Import ListNotations.
Open Scope string_scope.
Set Warnings "-register-all".

(** ** JavaScript values *)

Module JS.

(** Numbers are integer-valued: the only numbers the file looks at are the
    [m] and [n] of a wallet, compared against the literals 2 and 3. *)
Inductive value : Type :=
| VUndefined
| VNull
| VBool (b : bool)
| VNum (z : Z)
| VStr (s : string)
| VArr (items : list value)
| VObj (fields : list (string * value)).

(** An object literal: its properties in insertion order. *)
Definition obj : Type := list (string * value).

Inductive error : Type :=
| Error (message : string)       (* [throw new Error(message)] *)
| TypeError (message : string).  (* raised by the language itself *)

Inductive result (A : Type) : Type :=
| Ok (a : A)
| Throw (e : error).
Arguments Ok {A} a.
Arguments Throw {A} e.

(** [!!v] *)
Definition truthy (v : value) : bool :=
  match v with
  | VUndefined | VNull => false
  | VBool b => b
  | VNum z => negb (z =? 0)%Z
  | VStr s => negb (s =? "")
  | VArr _ | VObj _ => true
  end.

(** [a || b] *)
Definition js_or (a b : value) : value := if truthy a then a else b.

Fixpoint lookup (k : string) (o : obj) : value :=
  match o with
  | [] => VUndefined
  | (k', v) :: rest => if k' =? k then v else lookup k rest
  end.

Fixpoint has_field (k : string) (o : obj) : bool :=
  match o with
  | [] => false
  | (k', _) :: rest => (k' =? k) || has_field k rest
  end.

(** [o.k = v] on an object: overwrite in place, or add as the last
    property. *)
Fixpoint set_field (k : string) (v : value) (o : obj) : obj :=
  match o with
  | [] => [(k, v)]
  | (k', v') :: rest =>
      if k' =? k then (k', v) :: rest else (k', v') :: set_field k v rest
  end.

(** [v.k] for the property names this file uses (none of them is a
    built-in property of a primitive or of an array). *)
Definition get_prop (v : value) (k : string) : result value :=
  match v with
  | VUndefined => Throw (TypeError ("Cannot read property '" ++ k ++ "' of undefined"))
  | VNull => Throw (TypeError ("Cannot read property '" ++ k ++ "' of null"))
  | VObj fields => Ok (lookup k fields)
  | VBool _ | VNum _ | VStr _ | VArr _ => Ok VUndefined
  end.

(** [has_own v k]: [v] is an object with an own property [k]. *)
Definition has_own (v : value) (k : string) : bool :=
  match v with
  | VObj fields => has_field k fields
  | _ => false
  end.

(** String conversion, as done by ['...' + v]. *)
Fixpoint to_string (v : value) : string :=
  match v with
  | VUndefined => "undefined"
  | VNull => "null"
  | VBool true => "true"
  | VBool false => "false"
  | VNum z => NilZero.string_of_int (Z.to_int z)
  | VStr s => s
  | VArr items =>
      (fix join (l : list value) : string :=
         match l with
         | [] => ""
         | x :: rest =>
             let sx := match x with
                       | VUndefined | VNull => ""
                       | _ => to_string x
                       end in
             match rest with
             | [] => sx
             | _ :: _ => sx ++ "," ++ join rest
             end
         end) items
  | VObj _ => "[object Object]"
  end.

(** [s.split(sep)] for a one-character separator: never empty, the pieces
    between the separators in order. *)
Fixpoint split_on (sep : ascii) (s : string) : list string :=
  match s with
  | EmptyString => [EmptyString]
  | String c rest =>
      if Ascii.eqb c sep then EmptyString :: split_on sep rest
      else match split_on sep rest with
           | [] => [String c EmptyString]
           | piece :: pieces => String c piece :: pieces
           end
  end.

(** [v.split(",")]: a method of strings only. *)
Definition split_comma (v : value) : result (list string) :=
  match v with
  | VStr s => Ok (split_on "," s)
  | VUndefined => Throw (TypeError "Cannot read property 'split' of undefined")
  | VNull => Throw (TypeError "Cannot read property 'split' of null")
  | _ => Throw (TypeError "split is not a function")
  end.

(** [l.indexOf(x)]: the first position of [x], or -1. *)
Fixpoint indexOf (x : string) (l : list string) : Z :=
  match l with
  | [] => (-1)%Z
  | y :: rest =>
      if y =? x then 0%Z
      else let i := indexOf x rest in
           if (i <? 0)%Z then (-1)%Z else (i + 1)%Z
  end.

(** [l.join(",")] on strings, the inverse direction of [split_on]. *)
Definition join_comma (l : list string) : string := String.concat "," l.

(** A capability name: a string without a comma. *)
Fixpoint comma_free (s : string) : bool :=
  match s with
  | EmptyString => true
  | String c rest => negb (Ascii.eqb c ",") && comma_free rest
  end.

End JS.
Export JS.

(** ** Enumeration and keyed results *)

Module Enum.

(** The decimal name of an array index. *)
Definition index_name (i : nat) : string :=
  NilZero.string_of_uint (Nat.to_uint i).

Fixpoint indexed {A} (i : nat) (l : list A) : list (string * A) :=
  match l with
  | [] => []
  | x :: rest => (index_name i, x) :: indexed (S i) rest
  end.

Fixpoint chars (s : string) : list value :=
  match s with
  | EmptyString => []
  | String c rest => VStr (String c EmptyString) :: chars rest
  end.

(** [for (var k in v)] together with [v[k]]: the enumerable own keys of
    [v], in the order the object lists them, each with the value read
    back under it.  An array enumerates its indices, a string the
    positions of its characters; [undefined], [null], numbers and
    booleans enumerate nothing.  (JavaScript visits keys that are array
    indices first; here they keep their place.  What is proved about the
    loop is stated key by key and does not depend on the order.) *)
Definition enumerate (v : value) : list (string * value) :=
  match v with
  | VObj fields => map (fun kv => (fst kv, lookup (fst kv) fields)) fields
  | VArr items => indexed 0 items
  | VStr s => indexed 0 (chars s)
  | VUndefined | VNull | VBool _ | VNum _ => []
  end.

(** [o[k] = x] on a keyed result whose values are not plain values. *)
Fixpoint assign {A} (k : string) (x : A) (o : list (string * A))
  : list (string * A) :=
  match o with
  | [] => [(k, x)]
  | (k', x') :: rest =>
      if k' =? k then (k', x) :: rest else (k', x') :: assign k x rest
  end.


(** [Array.isArray(v)] and [typeof v === 'number']. *)
Definition is_array (v : value) : bool :=
  match v with VArr _ => true | _ => false end.

Definition is_number (v : value) : bool :=
  match v with VNum _ => true | _ => false end.

(** [v === undefined || v === null] *)
Definition is_nullish (v : value) : bool :=
  match v with VUndefined | VNull => true | _ => false end.


End Enum.
Export Enum.

(** ** The collaborators

    [wallets.js] works through the [bitgo] session object (transport,
    cipher, keychain service), [common.validateParams], the [BIP32] class
    and the [Wallet] constructor.  None of them is defined in this file;
    they are the parameters of the development.

    Reads of the service ([get], [getECDHSharingKeychain]) see its state
    and cannot change it; writes ([post], [keychains().add],
    [keychains().createBitGo]) return a new state.  Key generation and
    encryption draw from the client's entropy. *)

Class Collaborators : Type := {
  Remote : Type;
  Rng : Type;
  ExtKey : Type;
  ECKey : Type;
  (* common.validateParams(params, expectedParams, optionalParams) *)
  validateParams : value -> list string -> list string -> result unit;
  (* bitgo.url(path) *)
  url : string -> string;
  (* bitgo.get(url).result() *)
  http_get : string -> Remote -> result value;
  (* bitgo.post(url).send(body).result() *)
  http_post : string -> value -> Remote -> result value * Remote;
  (* bitgo.getECDHSharingKeychain() *)
  getECDHSharingKeychain : Remote -> result value;
  (* bitgo.decrypt({ password, input }) *)
  decrypt : value -> value -> result string;
  (* bitgo.encrypt({ password, input }) *)
  encrypt : value -> value -> Rng -> result string * Rng;
  (* bitgo.getECDHSecret({ eckey, otherPubKeyHex }) *)
  getECDHSecret : ECKey -> value -> result string;
  (* bitgo.keychains().create(): a fresh { xpub, xprv } *)
  keychains_create : Rng -> result (string * string) * Rng;
  (* bitgo.keychains().add(params) *)
  keychains_add : value -> Remote -> result value * Remote;
  (* bitgo.keychains().createBitGo() *)
  keychains_createBitGo : Remote -> result value * Remote;
  (* new BIP32(xprv) *)
  BIP32_new : string -> result ExtKey;
  (* extKey.derive(path) *)
  BIP32_derive : ExtKey -> value -> result ExtKey;
  (* extKey.eckey *)
  BIP32_eckey : ExtKey -> ECKey
}.

(** Everything an invocation does outside its own frame, in the order it
    does it. *)
Inductive event : Type :=
| EvGet (u : string)
| EvPost (u : string) (body : value)
| EvGetECDHSharingKeychain
| EvKeychainsAdd (params : value)
| EvKeychainsCreateBitGo
| EvKeychainsCreate
| EvEncrypt (password : value) (input : value)
| EvDecrypt (password : value) (input : value)
| EvBIP32 (xprv : string)
| EvDerive (path : value)
| EvGetECDHSecret (otherPubKeyHex : value).

(** Calls that reach the service. *)
Definition is_network (e : event) : bool :=
  match e with
  | EvGet _ | EvPost _ _ | EvGetECDHSharingKeychain
  | EvKeychainsAdd _ | EvKeychainsCreateBitGo => true
  | _ => false
  end.

(** Calls that can change what the service holds. *)
Definition is_mutating (e : event) : bool :=
  match e with
  | EvPost _ _ | EvKeychainsAdd _ | EvKeychainsCreateBitGo => true
  | _ => false
  end.

(** Local work on key material. *)
Definition is_key_material (e : event) : bool :=
  match e with
  | EvKeychainsCreate | EvEncrypt _ _ | EvDecrypt _ _
  | EvBIP32 _ | EvDerive _ | EvGetECDHSecret _ => true
  | _ => false
  end.

Definition network_calls (t : list event) : list event := filter is_network t.
Definition mutations (t : list event) : list event := filter is_mutating t.
Definition key_material_steps (t : list event) : list event :=
  filter is_key_material t.

(** ** The promise monad *)

Section Monad.
Context {C : Collaborators}.

Record World : Type := mkWorld { remote : Remote; rng : Rng }.

(** A computation runs in a world and leaves an outcome, the world after
    it, and the events it performed. *)
Definition M (A : Type) : Type := World -> result A * World * list event.

Definition ret {A} (a : A) : M A := fun w => (Ok a, w, []).

Definition throw {A} (e : error) : M A := fun w => (Throw e, w, []).

(** [m.then(f)] *)
Definition bind {A B} (m : M A) (f : A -> M B) : M B :=
  fun w =>
    match m w with
    | (Ok a, w1, t1) =>
        match f a w1 with
        | (r, w2, t2) => (r, w2, (t1 ++ t2)%list)
        end
    | (Throw e, w1, t1) => (Throw e, w1, t1)
    end.

Definition lift {A} (r : result A) : M A := fun w => (r, w, []).

(** A read of the service. *)
Definition reading {A} (ev : event) (f : Remote -> result A) : M A :=
  fun w => (f (remote w), w, [ev]).

(** A write to the service. *)
Definition writing {A} (ev : event) (f : Remote -> result A * Remote) : M A :=
  fun w =>
    match f (remote w) with
    | (r, rem) => (r, mkWorld rem (rng w), [ev])
    end.

(** A local step that consumes entropy. *)
Definition drawing {A} (ev : event) (f : Rng -> result A * Rng) : M A :=
  fun w =>
    match f (rng w) with
    | (r, g) => (r, mkWorld (remote w) g, [ev])
    end.

(** A local deterministic step. *)
Definition computing {A} (ev : event) (r : result A) : M A :=
  fun w => (r, w, [ev]).

(** The outcome of a continuation, after the events [t1] that led to it. *)
Definition logged {A} (t1 : list event) (x : result A * World * list event)
  : result A * World * list event :=
  match x with
  | (r, w, t2) => (r, w, (t1 ++ t2)%list)
  end.

End Monad.

Declare Scope promise_scope.
Delimit Scope promise_scope with promise.
Notation "x <- m ;; k" := (bind m (fun x => k))
  (at level 61, m at next level, right associativity) : promise_scope.
Notation "m ;;; k" := (bind m (fun _ => k))
  (at level 61, right associativity) : promise_scope.
Open Scope promise_scope.

(** ** The [bitgo] session, event by event *)

Section Session.
Context {C : Collaborators}.

Definition bitgo_get (u : string) : M value :=
  reading (EvGet u) (http_get u).

Definition bitgo_post (u : string) (body : value) : M value :=
  writing (EvPost u body) (http_post u body).

Definition bitgo_getECDHSharingKeychain : M value :=
  reading EvGetECDHSharingKeychain getECDHSharingKeychain.

Definition bitgo_decrypt (password input : value) : M string :=
  computing (EvDecrypt password input) (decrypt password input).

Definition bitgo_encrypt (password input : value) : M string :=
  drawing (EvEncrypt password input) (encrypt password input).

Definition bitgo_getECDHSecret (eckey : ECKey) (otherPubKeyHex : value)
  : M string :=
  computing (EvGetECDHSecret otherPubKeyHex) (getECDHSecret eckey otherPubKeyHex).

Definition new_BIP32 (xprv : string) : M ExtKey :=
  computing (EvBIP32 xprv) (BIP32_new xprv).

Definition derive (k : ExtKey) (path : value) : M ExtKey :=
  computing (EvDerive path) (BIP32_derive k path).

(** The object [keychains().create()] returns. *)
Definition keychain_obj (k : string * string) : obj :=
  [("xpub", VStr (fst k)); ("xprv", VStr (snd k))].

Definition bitgo_keychains_create : M obj :=
  drawing EvKeychainsCreate
    (fun g => match keychains_create g with
              | (Ok k, g') => (Ok (keychain_obj k), g')
              | (Throw e, g') => (Throw e, g')
              end).

Definition bitgo_keychains_add (params : value) : M value :=
  writing (EvKeychainsAdd params) (keychains_add params).

Definition bitgo_keychains_createBitGo : M value :=
  writing EvKeychainsCreateBitGo keychains_createBitGo.

End Session.

(** A run that only read: the world is as before, and the events are at
    most one GET of [u], none at all only when the run failed first. *)
Definition fetch_only {C : Collaborators} {A} (w : World) (u : string)
    (x : result A * World * list event) : Prop :=
  snd (fst x) = w
  /\ ((snd x = [] /\ exists e, fst (fst x) = Throw e) \/ snd x = [EvGet u]).

(** ** wallets.js *)

Module Wallets.
Section Code.
Context {C : Collaborators}.

(** [new Wallet(bitgo, body)]: the wallet model object holds the record
    the service returned. *)
Record Wallet : Type := new_Wallet { wallet_data : value }.

(** [this.bitgo.url('/walletshare/' + params.walletShareId)], lines 68
    and 137. *)
Definition walletshare_url (walletShareId : value) : string :=
  url ("/walletshare/" ++ to_string walletShareId).

(** [params.k] after the defaulting [params = params || {}] that opens
    every operation. *)
Definition param (params : value) (k : string) : value :=
  match get_prop (js_or params (VObj [])) k with
  | Ok v => v
  | Throw _ => VUndefined
  end.

(** [getShare(params)], lines 63-71. *)
Definition getShare (params : value) : M value :=
  let params := js_or params (VObj []) in
  lift (validateParams params ["walletShareId"] []) ;;;
  walletShareId <- lift (get_prop params "walletShareId") ;;
  bitgo_get (walletshare_url walletShareId).

(** The test of line 94 on the split permissions. *)
Definition only_view (permissions : list string) : bool :=
  (Nat.eqb (length permissions) 1) && (0 <=? indexOf "view" permissions)%Z.

(** The callback of lines 105-126: from the sharing keychain to the
    re-encrypted wallet key. *)
Definition reencryptSharedKey (params walletShare sharingKeychain : value)
  : M value :=
  sharingXprv <- lift (get_prop sharingKeychain "encryptedXprv") ;;
  if negb (truthy sharingXprv) then
    throw (Error "EncryptedXprv was not found on sharing keychain")
  else
    userPassword <- lift (get_prop params "userPassword") ;;
    xprv <- bitgo_decrypt userPassword sharingXprv ;;
    rootExtKey <- new_BIP32 xprv ;;
    keychain <- lift (get_prop walletShare "keychain") ;;
    path <- lift (get_prop keychain "path") ;;
    extKey <- derive rootExtKey path ;;
    keychain <- lift (get_prop walletShare "keychain") ;;
    fromPubKey <- lift (get_prop keychain "fromPubKey") ;;
    secret <- bitgo_getECDHSecret (BIP32_eckey extKey) fromPubKey ;;
    keychain <- lift (get_prop walletShare "keychain") ;;
    sharedXprv <- lift (get_prop keychain "encryptedXprv") ;;
    decryptedSharedWalletXprv <- bitgo_decrypt (VStr secret) sharedXprv ;;
    newWalletPassphrase0 <- lift (get_prop params "newWalletPassphrase") ;;
    userPassword <- lift (get_prop params "userPassword") ;;
    let newWalletPassphrase := js_or newWalletPassphrase0 userPassword in
    blob <- bitgo_encrypt newWalletPassphrase (VStr decryptedSharedWalletXprv) ;;
    ret (VStr blob).

(** The first [then] callback, lines 92-127.  It returns the wallet share
    together with the value it leaves in the closure variable
    [encryptedSharedWalletXprv] ([undefined] when it never assigns it). *)
Definition processShare (params walletShare : value) : M (value * value) :=
  perms <- lift (get_prop walletShare "permissions") ;;
  permissions <- lift (split_comma perms) ;;
  if only_view permissions then
    ret (walletShare, VUndefined)
  else
    userPassword <- lift (get_prop params "userPassword") ;;
    if negb (truthy userPassword) then
      throw (Error "userPassword param must be provided to decrypt shared key")
    else
      sharingKeychain <- bitgo_getECDHSharingKeychain ;;
      encryptedSharedWalletXprv <-
        reencryptSharedKey params walletShare sharingKeychain ;;
      ret (walletShare, encryptedSharedWalletXprv).

(** The body built by the second [then] callback, lines 129-135. *)
Definition postBody (encryptedSharedWalletXprv : value) : obj :=
  let postBody := [("state", VStr "accepted")] in
  if truthy encryptedSharedWalletXprv
  then set_field "encryptedXprv" encryptedSharedWalletXprv postBody
  else postBody.

(** The second [then] callback, lines 128-143. *)
Definition finalizeShare (params : value) (st : value * value) : M value :=
  walletShareId <- lift (get_prop params "walletShareId") ;;
  res <- bitgo_post (walletshare_url walletShareId)
                    (VObj (postBody (snd st))) ;;
  ret res.

(** [acceptShare(params)], lines 84-145. *)
Definition acceptShare (params : value) : M value :=
  let params := js_or params (VObj []) in
  lift (validateParams params ["walletShareId"] []) ;;;
  walletShareId <- lift (get_prop params "walletShareId") ;;
  walletShare <- getShare (VObj [("walletShareId", walletShareId)]) ;;
  st <- processShare params walletShare ;;
  finalizeShare params st.

(** [Array.prototype.map] with a callback that can throw: the first
    exception ends the traversal. *)
Fixpoint map_throwing {A B} (f : A -> result B) (l : list A)
  : result (list B) :=
  match l with
  | [] => Ok []
  | x :: rest =>
      match f x with
      | Throw e => Throw e
      | Ok y =>
          match map_throwing f rest with
          | Throw e => Throw e
          | Ok ys => Ok (y :: ys)
          end
      end
  end.

(** The callback of line 278: [function(k) { return {xpub: k.xpub}; }]. *)
Definition xpub_only (k : value) : result value :=
  match get_prop k "xpub" with
  | Ok x => Ok (VObj [("xpub", x)])
  | Throw e => Throw e
  end.

(** The request body of [add], lines 279-288. *)
Definition add_walletParams (label : value) (m n : Z) (keychains : list value)
    (enterprise : value) : obj :=
  let walletParams :=
    [("label", label); ("m", VNum m); ("n", VNum n);
     ("keychains", VArr keychains)] in
  if truthy enterprise
  then set_field "enterprise" enterprise walletParams
  else walletParams.

(** Two keychain entries that a caller may pass to [add] show the same
    [xpub]; they may differ in every other field. *)
Definition same_xpub (k1 k2 : value) : Prop :=
  get_prop k1 "xpub" = get_prop k2 "xpub".

(** [add(params)], lines 263-297.  The guard of lines 267-270 lets through
    exactly an array of keychains with numbers for [m] and [n]. *)
Definition add (params : value) : M Wallet :=
  let params := js_or params (VObj []) in
  lift (validateParams params [] ["label"; "enterprise"]) ;;;
  keychains <- lift (get_prop params "keychains") ;;
  m <- lift (get_prop params "m") ;;
  n <- lift (get_prop params "n") ;;
  match keychains, m, n with
  | VArr entries, VNum m, VNum n =>
      if negb (m =? 2)%Z || negb (n =? 3)%Z then
        throw (Error "unsupported multi-sig type")
      else
        keychains <- lift (map_throwing xpub_only entries) ;;
        label <- lift (get_prop params "label") ;;
        enterprise <- lift (get_prop params "enterprise") ;;
        body <- bitgo_post (url "/wallet")
                  (VObj (add_walletParams label m n keychains enterprise)) ;;
        ret (new_Wallet body)
  | _, _, _ => throw (Error "invalid argument")
  end.

(** The object [createWalletWithKeychains] resolves to, lines 243-249. *)
Record Created : Type := mkCreated {
  wallet : Wallet;
  userKeychain : obj;
  backupKeychain : obj;
  bitgoKeychain : value;
  warning : string
}.

(** The request body built at lines 226-238. *)
Definition create_walletParams (label userXpub backupXpub bitgoXpub
    enterprise : value) : obj :=
  let walletParams :=
    [("label", label); ("m", VNum 2); ("n", VNum 3);
     ("keychains", VArr [VObj [("xpub", userXpub)];
                         VObj [("xpub", backupXpub)];
                         VObj [("xpub", bitgoXpub)]])] in
  if truthy enterprise
  then set_field "enterprise" enterprise walletParams
  else walletParams.


(** The registration requests of lines 209-212 and 216-218. *)
Definition key1Params (userKeychain : obj) : value :=
  VObj [("xpub", lookup "xpub" userKeychain);
        ("encryptedXprv", lookup "encryptedXprv" userKeychain)].

Definition key2Params (backupKeychain : obj) : value :=
  VObj [("xpub", lookup "xpub" backupKeychain)].

(** [createWalletWithKeychains(params)], lines 190-252. *)
Definition createWalletWithKeychains (params : value) : M Created :=
  let params := js_or params (VObj []) in
  lift (validateParams params ["passphrase"]
          ["label"; "backupXpub"; "enterprise"]) ;;;
  label <- lift (get_prop params "label") ;;
  (* Create the user and backup key. *)
  userKeychain <- bitgo_keychains_create ;;
  passphrase <- lift (get_prop params "passphrase") ;;
  encryptedXprv <- bitgo_encrypt passphrase (lookup "xprv" userKeychain) ;;
  let userKeychain :=
    set_field "encryptedXprv" (VStr encryptedXprv) userKeychain in
  backupXpub <- lift (get_prop params "backupXpub") ;;
  backupKeychain <-
    (if negb (truthy backupXpub) then bitgo_keychains_create
     else ret [("xpub", backupXpub)]) ;;
  (* Add keychains to BitGo *)
  bitgo_keychains_add (key1Params userKeychain) ;;;
  bitgo_keychains_add (key2Params backupKeychain) ;;;
  bitgoKeychain <- bitgo_keychains_createBitGo ;;
  bitgoXpub <- lift (get_prop bitgoKeychain "xpub") ;;
  enterprise <- lift (get_prop params "enterprise") ;;
  result <- add (VObj (create_walletParams label
                         (lookup "xpub" userKeychain)
                         (lookup "xpub" backupKeychain)
                         bitgoXpub enterprise)) ;;
  ret (mkCreated result userKeychain backupKeychain bitgoKeychain
         "Be sure to backup the backup keychain -- it is not stored anywhere else!").

(** [listShares(params)], lines 47-55. *)
Definition listShares (params : value) : M value :=
  let params := js_or params (VObj []) in
  lift (validateParams params [] []) ;;;
  bitgo_get (url "/walletshare").

(** [get(params)], lines 305-316. *)
Definition get (params : value) : M Wallet :=
  let params := js_or params (VObj []) in
  lift (validateParams params ["id"] []) ;;;
  id <- lift (get_prop params "id") ;;
  body <- bitgo_get (url ("/wallet/" ++ to_string id)) ;;
  ret (new_Wallet body).

(** The loop of lines 34-37: one [Wallet] per enumerated key. *)
Definition wrap_wallets (wallets : value) : list (string * Wallet) :=
  fold_left (fun acc kv => assign (fst kv) (new_Wallet (snd kv)) acc)
    (enumerate wallets) [].

(** [list(params)], lines 26-41. *)
Definition list (params : value) : M (Datatypes.list (string * Wallet)) :=
  let params := js_or params (VObj []) in
  lift (validateParams params [] []) ;;;
  body <- bitgo_get (url "/wallet") ;;
  wallets <- lift (get_prop body "wallets") ;;
  ret (wrap_wallets wallets).

End Code.
End Wallets.

(** ** A small concrete session

    A toy service, cipher and key tree, enough to run every operation of
    the file from end to end. *)

Module Mock.

Definition mock_url (path : string) : string :=
  "https://test.bitgo.com/api/v1" ++ path.

Definition is_string (v : value) : bool :=
  match v with VStr _ => true | _ => false end.

(** Required parameters are non-empty strings; optional ones, when given,
    are strings. *)
Definition mock_validateParams (params : value) (expected optional : list string)
  : result unit :=
  match params with
  | VObj fields =>
      if forallb (fun k => is_string (lookup k fields)
                           && truthy (lookup k fields)) expected
         && forallb (fun k => negb (truthy (lookup k fields))
                              || is_string (lookup k fields)) optional
      then Ok tt
      else Throw (Error "Missing or malformed parameter")
  | _ => Throw (Error "Must pass in parameters dictionary")
  end.

(** The cipher writes the password in front of the plaintext and checks
    it on the way back. *)
Fixpoint strip_prefix (p c : string) : option string :=
  match p, c with
  | EmptyString, _ => Some c
  | String a p', String b c' =>
      if Ascii.eqb a b then strip_prefix p' c' else None
  | String _ _, EmptyString => None
  end.

Definition seal (password plaintext : string) : string :=
  (password ++ "|") ++ plaintext.

Definition mock_encrypt (password input : value) (g : nat)
  : result string * nat :=
  match password, input with
  | VStr p, VStr m => (Ok (seal p m), S g)
  | _, _ => (Throw (Error "Expecting parameter string"), g)
  end.

Definition mock_decrypt (password input : value) : result string :=
  match password, input with
  | VStr p, VStr c =>
      match strip_prefix (p ++ "|") c with
      | Some m => Ok m
      | None => Throw (Error "ccm: tag doesn't match")
      end
  | _, _ => Throw (Error "Expecting parameter string")
  end.

(** Keys are strings; a child key is its parent's name and the path. *)
Definition mock_BIP32_new (xprv : string) : result string :=
  if String.prefix "xprv" xprv then Ok xprv
  else Throw (Error "Invalid extended key").

Definition mock_derive (k : string) (path : value) : result string :=
  match path with
  | VStr p => Ok (k ++ "/" ++ p)
  | _ => Throw (Error "Invalid path")
  end.

Definition mock_getECDHSecret (eckey : string) (otherPubKeyHex : value)
  : result string :=
  match otherPubKeyHex with
  | VStr h => Ok ("ecdh(" ++ eckey ++ "," ++ h ++ ")")
  | _ => Throw (Error "Invalid public key")
  end.

Definition mock_keychains_create (g : nat) : result (string * string) * nat :=
  let tag := NilZero.string_of_uint (Nat.to_uint g) in
  (Ok ("xpub" ++ tag, "xprv" ++ tag), S g).

(** The user's own sharing keychain, sealed under the account password
    ["hunter2"]. *)
Definition sharing_keychain : value :=
  VObj [("xpub", VStr "xpubSHARING");
        ("encryptedXprv", VStr (seal "hunter2" "xprvSHARING"))].

Definition shared_secret : string := "ecdh(xprvSHARING/m/999999/1/2,02ab)".

Definition share_view : value :=
  VObj [("id", VStr "share1"); ("permissions", VStr "view");
        ("state", VStr "pending")].

Definition share_spend : value :=
  VObj [("id", VStr "share2"); ("permissions", VStr "spend,view");
        ("state", VStr "pending");
        ("keychain",
         VObj [("path", VStr "m/999999/1/2"); ("fromPubKey", VStr "02ab");
               ("encryptedXprv", VStr (seal shared_secret "xprvWALLET"))])].

(** The service keeps the list of writes it accepted, newest first. *)
Definition mock_get (u : string) (rem : list (string * value)) : result value :=
  if u =? mock_url "/walletshare/share1" then Ok share_view
  else if u =? mock_url "/walletshare/share2" then Ok share_spend
  else Throw (Error "not found").

Definition mock_post (u : string) (body : value) (rem : list (string * value))
  : result value * list (string * value) :=
  (Ok body, (u, body) :: rem).

Definition mock_keychains_add (params : value) (rem : list (string * value))
  : result value * list (string * value) :=
  (Ok params, ("/keychain", params) :: rem).

Definition mock_createBitGo (rem : list (string * value))
  : result value * list (string * value) :=
  (Ok (VObj [("xpub", VStr "xpubBITGO"); ("isBitGo", VBool true)]),
   ("/keychain/bitgo", VObj []) :: rem).

Definition session : Collaborators := {|
  Remote := list (string * value);
  Rng := nat;
  ExtKey := string;
  ECKey := string;
  validateParams := mock_validateParams;
  url := mock_url;
  http_get := mock_get;
  http_post := mock_post;
  getECDHSharingKeychain := fun _ => Ok sharing_keychain;
  decrypt := mock_decrypt;
  encrypt := mock_encrypt;
  getECDHSecret := mock_getECDHSecret;
  keychains_create := mock_keychains_create;
  keychains_add := mock_keychains_add;
  keychains_createBitGo := mock_createBitGo;
  BIP32_new := mock_BIP32_new;
  BIP32_derive := mock_derive;
  BIP32_eckey := fun k => k
|}.

Definition world0 : @World session := @mkWorld session [] 0.

(** The calls the examples make. *)
Definition accept_view : value := VObj [("walletShareId", VStr "share1")].

Definition accept_spend_no_password : value :=
  VObj [("walletShareId", VStr "share2")].

Definition accept_spend_wrong_password : value :=
  VObj [("walletShareId", VStr "share2"); ("userPassword", VStr "wrong")].

Definition accept_spend : value :=
  VObj [("walletShareId", VStr "share2"); ("userPassword", VStr "hunter2");
        ("newWalletPassphrase", VStr "newpass123")].

Definition create_params : value :=
  VObj [("passphrase", VStr "p@ss"); ("label", VStr "L")].

Definition add_3_of_5 : value :=
  VObj [("label", VStr "L"); ("m", VNum 3); ("n", VNum 5);
        ("keychains", VArr [VObj [("xpub", VStr "xpubA")]])].

Definition add_with_private_fields : value :=
  VObj [("label", VStr "L"); ("m", VNum 2); ("n", VNum 3);
        ("keychains",
         VArr [VObj [("xpub", VStr "xpubA"); ("xprv", VStr "xprvA")];
               VObj [("xpub", VStr "xpubB");
                     ("encryptedXprv", VStr "pw|xprvB")];
               VObj [("xpub", VStr "xpubC")]])].

Definition add_public_only : value :=
  VObj [("label", VStr "L"); ("m", VNum 2); ("n", VNum 3);
        ("keychains",
         VArr [VObj [("xpub", VStr "xpubA")]; VObj [("xpub", VStr "xpubB")];
               VObj [("xpub", VStr "xpubC")]])].

Definition accept (params : value) :=
  @Wallets.acceptShare session params world0.

Definition create (params : value) :=
  @Wallets.createWalletWithKeychains session params world0.

Definition add (params : value) :=
  @Wallets.add session params world0.

End Mock.

(** Variations of the session: other answers to the reads, and a
    service whose keychain creation is down. *)
Module MockDirectory.

Definition wallet_a : value :=
  VObj [("id", VStr "2MwalletA"); ("label", VStr "savings")].

Definition wallet_b : value :=
  VObj [("id", VStr "2MwalletB"); ("label", VStr "spending")].

Definition directory : value :=
  VObj [("wallets",
         VObj [("2MwalletA", wallet_a); ("2MwalletB", wallet_b)])].

Definition directory_answers (u : string) : result value :=
  if u =? Mock.mock_url "/wallet" then Ok directory
  else if u =? Mock.mock_url "/wallet/2MwalletA" then Ok wallet_a
  else if u =? Mock.mock_url "/walletshare" then Ok (VObj [("incoming", VArr [])])
  else if u =? Mock.mock_url "/walletshare/share9"
       then Ok (VObj [("id", VStr "share9"); ("state", VStr "pending")])
  else Throw (Error "not found").

Definition serving (answers : string -> result value) (bitgo_up : bool)
  : Collaborators := {|
  Remote := Datatypes.list (string * value);
  Rng := nat;
  ExtKey := string;
  ECKey := string;
  validateParams := Mock.mock_validateParams;
  url := Mock.mock_url;
  http_get := fun u _ => answers u;
  http_post := Mock.mock_post;
  getECDHSharingKeychain := fun _ => Ok Mock.sharing_keychain;
  decrypt := Mock.mock_decrypt;
  encrypt := Mock.mock_encrypt;
  getECDHSecret := Mock.mock_getECDHSecret;
  keychains_create := Mock.mock_keychains_create;
  keychains_add := Mock.mock_keychains_add;
  keychains_createBitGo :=
    fun rem => if bitgo_up then Mock.mock_createBitGo rem
               else (Throw (Error "service unavailable"), rem);
  BIP32_new := Mock.mock_BIP32_new;
  BIP32_derive := Mock.mock_derive;
  BIP32_eckey := fun k => k
|}.

Definition session : Collaborators := serving directory_answers true.

(** A directory that answers every read with an empty object. *)
Definition blank : Collaborators := serving (fun _ => Ok (VObj [])) true.

(** A service that registers keychains but cannot create its own. *)
Definition outage : Collaborators := serving directory_answers false.

Definition fresh (C : Collaborators) (rem : @Remote C) (g : @Rng C)
  : @World C := @mkWorld C rem g.

(** More calls for the examples. *)
Definition accept_view_with_passwords : value :=
  VObj [("walletShareId", VStr "share1"); ("userPassword", VStr "hunter2");
        ("newWalletPassphrase", VStr "newpass123")].

Definition accept_spend_empty_password : value :=
  VObj [("walletShareId", VStr "share2"); ("userPassword", VStr "")].

Definition accept_share9 : value := VObj [("walletShareId", VStr "share9")].

Definition add_numeric_strings : value :=
  VObj [("label", VStr "L"); ("m", VStr "2"); ("n", VStr "3");
        ("keychains", VArr [VObj [("xpub", VStr "xpubA")]])].

Definition add_with_null : value :=
  VObj [("label", VStr "L"); ("m", VNum 2); ("n", VNum 3);
        ("keychains", VArr [VObj [("xpub", VStr "xpubA")]; VNull])].


End MockDirectory.

(** * Properties *)

(** ** Values and strings *)

Lemma truthy_defaulted (params : value) : truthy (js_or params (VObj [])) = true.
Proof.
  unfold js_or. destruct (truthy params) eqn:E; [exact E | reflexivity].
Qed.

Lemma get_prop_truthy (v : value) (k : string) :
  truthy v = true -> exists x, get_prop v k = Ok x.
Proof.
  destruct v; simpl; intros H; try discriminate; eauto.
Qed.

Lemma get_prop_param (params : value) (k : string) :
  get_prop (js_or params (VObj [])) k = Ok (Wallets.param params k).
Proof.
  unfold Wallets.param.
  destruct (get_prop_truthy _ k (truthy_defaulted params)) as [x ->].
  reflexivity.
Qed.

Lemma js_or_obj (fields : obj) (v : value) : js_or (VObj fields) v = VObj fields.
Proof. reflexivity. Qed.

Lemma param_walletShareId (id : value) :
  Wallets.param (VObj [("walletShareId", id)]) "walletShareId" = id.
Proof. reflexivity. Qed.

Lemma split_on_nonempty (sep : ascii) (s : string) : split_on sep s <> [].
Proof.
  destruct s as [|c s]; simpl; [discriminate|].
  destruct (Ascii.eqb c sep); [discriminate|].
  destruct (split_on sep s); discriminate.
Qed.

(** A split with a single piece found no separator: the piece is the whole
    string. *)
Lemma split_on_single (sep : ascii) (s : string) :
  length (split_on sep s) = 1 -> split_on sep s = [s].
Proof.
  induction s as [|c s IH]; simpl; [reflexivity|].
  destruct (Ascii.eqb c sep).
  - simpl. intros H. injection H as H.
    destruct (split_on sep s) eqn:E; [|discriminate].
    now apply split_on_nonempty in E.
  - destruct (split_on sep s) as [|piece pieces] eqn:E.
    + now apply split_on_nonempty in E.
    + simpl. intros H. simpl in IH. specialize (IH H).
      injection IH as -> ->. reflexivity.
Qed.

(** Line 94 recognises exactly the permission string ["view"]. *)
Lemma only_view_iff (perms : string) :
  Wallets.only_view (split_on "," perms) = true <-> perms = "view".
Proof.
  unfold Wallets.only_view. split.
  - intros H. apply andb_true_iff in H. destruct H as [Hlen Hidx].
    apply Nat.eqb_eq in Hlen. rewrite (split_on_single _ _ Hlen) in Hidx.
    simpl in Hidx. destruct (perms =? "view") eqn:E.
    + now apply String.eqb_eq in E.
    + discriminate.
  - intros ->. reflexivity.
Qed.

Lemma only_view_false (perms : string) :
  perms <> "view" -> Wallets.only_view (split_on "," perms) = false.
Proof.
  intros H. destruct (Wallets.only_view (split_on "," perms)) eqn:E; [|reflexivity].
  apply only_view_iff in E. contradiction.
Qed.

(** The service sends the granted capabilities joined by commas;
    splitting gives them back. *)
Lemma split_on_comma_free (s : string) :
  comma_free s = true -> split_on "," s = [s].
Proof.
  induction s as [|c s IH]; simpl; [reflexivity|].
  intros H. apply andb_true_iff in H. destruct H as [Hc Hs].
  apply negb_true_iff in Hc. rewrite Hc, (IH Hs). reflexivity.
Qed.

Lemma split_on_app (s rest : string) :
  comma_free s = true ->
  split_on "," (s ++ String "," rest) = s :: split_on "," rest.
Proof.
  induction s as [|c s IH]; simpl; [reflexivity|].
  intros H. apply andb_true_iff in H. destruct H as [Hc Hs].
  apply negb_true_iff in Hc. rewrite Hc, (IH Hs). reflexivity.
Qed.

Lemma split_join (caps : list string) :
  caps <> [] -> forallb comma_free caps = true ->
  split_on "," (join_comma caps) = caps.
Proof.
  unfold join_comma.
  induction caps as [|c caps IH]; [congruence|].
  intros _ H. simpl in H. apply andb_true_iff in H. destruct H as [Hc Hcaps].
  destruct caps as [|c' caps].
  - simpl. now apply split_on_comma_free.
  - change (String.concat "," (c :: c' :: caps))
      with (c ++ String "," (String.concat "," (c' :: caps))).
    rewrite (split_on_app _ _ Hc), IH; [reflexivity|discriminate|exact Hcaps].
Qed.

(** A grant that includes a capability other than ["view"] is not the
    string ["view"]. *)
Lemma more_than_view (caps : list string) (c : string) :
  forallb comma_free caps = true -> In c caps -> c <> "view" ->
  join_comma caps <> "view".
Proof.
  intros Hfree Hin Hc Heq.
  assert (Hne : caps <> []) by (intros ->; contradiction).
  pose proof (split_join caps Hne Hfree) as Hsplit.
  rewrite Heq in Hsplit. simpl in Hsplit. subst caps.
  destruct Hin as [<-|[]]. now apply Hc.
Qed.

(** ** Runs of the promise monad *)

Section Runs.
Context {C : Collaborators}.

Lemma bind_bind {A B D} (m : M A) (f : A -> M B) (g : B -> M D) w :
  bind (bind m f) g w = bind m (fun a => bind (f a) g) w.
Proof.
  unfold bind. destruct (m w) as [[[a|e] w1] t1]; [|reflexivity].
  destruct (f a w1) as [[[b|e] w2] t2]; [|reflexivity].
  destruct (g b w2) as [[r w3] t3]. now rewrite app_assoc.
Qed.

Lemma bind_ret {A B} (a : A) (f : A -> M B) w : bind (ret a) f w = f a w.
Proof. unfold bind, ret. destruct (f a w) as [[r w2] t2]. reflexivity. Qed.

Lemma bind_throw {A B} (e : error) (f : A -> M B) w :
  bind (throw e) f w = (Throw e, w, []).
Proof. reflexivity. Qed.

Lemma bind_lift {A B} (x : result A) (f : A -> M B) w :
  bind (lift x) f w
  = match x with
    | Ok a => f a w
    | Throw e => (Throw e, w, [])
    end.
Proof.
  unfold bind, lift. destruct x as [a|e]; [|reflexivity].
  destruct (f a w) as [[r w2] t2]. reflexivity.
Qed.

Lemma bind_reading {A B} ev (g : Remote -> result A) (f : A -> M B) w :
  bind (reading ev g) f w
  = match g (remote w) with
    | Ok a => logged [ev] (f a w)
    | Throw e => (Throw e, w, [ev])
    end.
Proof. unfold bind, reading. destruct (g (remote w)); reflexivity. Qed.

Lemma bind_computing {A B} ev (x : result A) (f : A -> M B) w :
  bind (computing ev x) f w
  = match x with
    | Ok a => logged [ev] (f a w)
    | Throw e => (Throw e, w, [ev])
    end.
Proof. unfold bind, computing. destruct x; reflexivity. Qed.

Lemma bind_writing {A B} ev (g : Remote -> result A * Remote) (f : A -> M B) w :
  bind (writing ev g) f w
  = match g (remote w) with
    | (Ok a, rem) => logged [ev] (f a (mkWorld rem (rng w)))
    | (Throw e, rem) => (Throw e, mkWorld rem (rng w), [ev])
    end.
Proof.
  unfold bind, writing. destruct (g (remote w)) as [[a|e] rem]; reflexivity.
Qed.

Lemma bind_drawing {A B} ev (g : Rng -> result A * Rng) (f : A -> M B) w :
  bind (drawing ev g) f w
  = match g (rng w) with
    | (Ok a, g') => logged [ev] (f a (mkWorld (remote w) g'))
    | (Throw e, g') => (Throw e, mkWorld (remote w) g', [ev])
    end.
Proof.
  unfold bind, drawing. destruct (g (rng w)) as [[a|e] g']; reflexivity.
Qed.

Lemma bind_step {A B} (m : M A) (f : A -> M B) w r w1 t1 :
  m w = (r, w1, t1) ->
  bind m f w
  = match r with
    | Ok a => logged t1 (f a w1)
    | Throw e => (Throw e, w1, t1)
    end.
Proof. unfold bind. intros ->. destruct r; reflexivity. Qed.

End Runs.

(** One step of symbolic execution of a run, in the goal or in a
    hypothesis. *)
Ltac run_goal :=
  repeat (cbv beta zeta iota;
          rewrite ?bind_bind, ?bind_lift, ?bind_ret, ?bind_throw,
            ?bind_reading, ?bind_computing, ?bind_writing, ?bind_drawing,
            ?js_or_obj, ?get_prop_param, ?param_walletShareId).

Ltac run_in H :=
  repeat (cbv beta zeta iota in H;
          rewrite ?bind_bind, ?bind_lift, ?bind_ret, ?bind_throw,
            ?bind_reading, ?bind_computing, ?bind_writing, ?bind_drawing,
            ?js_or_obj, ?get_prop_param, ?param_walletShareId in H).

(** Case analysis on the next thing a run in [H] depends on: the answer
    of a collaborator or a branch of the code. *)
Ltac run_case H :=
  match type of H with
  | context [match ?x with Ok _ => _ | Throw _ => _ end] =>
      let E := fresh "E" in destruct x eqn:E
  | context [match ?x with pair _ _ => _ end] =>
      let E := fresh "E" in destruct x as [[?|?] ?] eqn:E
  | context [if ?b then _ else _] =>
      let E := fresh "E" in destruct b eqn:E
  | context [match ?x with _ => _ end] =>
      let E := fresh "E" in destruct x eqn:E
  end.

(** Every path of a run in [H], down to its outcome. *)
Ltac run_paths H :=
  run_in H;
  repeat (run_case H; run_in H);
  cbn [logged app] in H; cbn [remote rng] in *.

(** Membership in an explicit trace. *)
Ltac in_trace H :=
  simpl in H;
  repeat lazymatch type of H with
         | _ \/ _ => destruct H as [H|H]; [try discriminate H|]
         | False => contradiction
         end.

Ltac find_in_trace := simpl; repeat (first [left; reflexivity | right]).

(** ** Accepting a share *)

Section AcceptShare.
Context {C : Collaborators}.

(** C3.  A share whose permission string is exactly ["view"], accepted
    without [userPassword], goes from the fetch straight to the finalize
    POST: no step touches key material, the body posted is
    [{state: 'accepted'}] with no [encryptedXprv], and the call resolves
    to what the service answers. *)
Theorem acceptShare_view_only_shortcut (params walletShare res : value)
    (w : World) (rem' : Remote) :
  let id := Wallets.param params "walletShareId" in
  let u := Wallets.walletshare_url id in
  validateParams (js_or params (VObj [])) ["walletShareId"] [] = Ok tt ->
  validateParams (VObj [("walletShareId", id)]) ["walletShareId"] [] = Ok tt ->
  Wallets.param params "userPassword" = VUndefined ->
  http_get u (remote w) = Ok walletShare ->
  get_prop walletShare "permissions" = Ok (VStr "view") ->
  http_post u (VObj [("state", VStr "accepted")]) (remote w) = (Ok res, rem') ->
  exists body,
    Wallets.acceptShare params w
    = (Ok res, mkWorld rem' (rng w), [EvGet u; EvPost u body])
    /\ key_material_steps [EvGet u; EvPost u body] = []
    /\ get_prop body "state" = Ok (VStr "accepted")
    /\ has_own body "encryptedXprv" = false.
Proof.
  intros id u Hv1 Hv2 _ Hget Hperm Hpost.
  exists (VObj [("state", VStr "accepted")]).
  split; [|repeat split].
  unfold Wallets.acceptShare, Wallets.getShare, Wallets.processShare,
    Wallets.finalizeShare, bitgo_get, bitgo_post.
  run_goal. rewrite Hv1. run_goal. fold id. rewrite Hv2. fold u. rewrite Hget. run_goal. rewrite Hperm.
  simpl split_comma. run_goal.
  change (Wallets.only_view ["view"]) with true. cbv iota. run_goal.
  change (Wallets.postBody (snd (walletShare, VUndefined)))
    with [("state", VStr "accepted")].
  fold u. rewrite Hpost. reflexivity.
Qed.

Lemma postBody_undefined :
  Wallets.postBody VUndefined = [("state", VStr "accepted")].
Proof. reflexivity. Qed.

Lemma postBody_blob (c : string) :
  c <> "" ->
  Wallets.postBody (VStr c)
  = [("state", VStr "accepted"); ("encryptedXprv", VStr c)].
Proof.
  intros Hc. unfold Wallets.postBody. simpl.
  destruct (c =? "") eqn:E; [|reflexivity].
  apply String.eqb_eq in E. contradiction.
Qed.

Ltac unfold_acceptShare H :=
  unfold Wallets.acceptShare, Wallets.getShare, Wallets.processShare,
    Wallets.finalizeShare, Wallets.reencryptSharedKey, bitgo_get, bitgo_post,
    bitgo_getECDHSharingKeychain, bitgo_decrypt, bitgo_encrypt,
    bitgo_getECDHSecret, new_BIP32, derive in H.

(** C10.  Whatever the finalize POST carries, its [state] is
    ['accepted']; and, for a cipher whose output is never the empty
    string, it has an [encryptedXprv] field exactly when the key-transfer
    branch produced a re-encrypted blob, which is then the field's
    value. *)
Theorem acceptShare_payload (params : value) (w w' : World) (r : result value)
    (t : list event) :
  (forall p m g c g', encrypt p m g = (Ok c, g') -> c <> "") ->
  Wallets.acceptShare params w = (r, w', t) ->
  forall u body, In (EvPost u body) t ->
    get_prop body "state" = Ok (VStr "accepted")
    /\ (has_own body "encryptedXprv" = true
        <-> exists pw x blob g',
              In (EvEncrypt pw x) t /\ encrypt pw x (rng w) = (Ok blob, g'))
    /\ (forall pw x blob g',
          In (EvEncrypt pw x) t -> encrypt pw x (rng w) = (Ok blob, g') ->
          get_prop body "encryptedXprv" = Ok (VStr blob)).
Proof.
  intros Hne H u body Hin. unfold_acceptShare H. run_paths H.
  all: injection H as <- <- <-.
  all: in_trace Hin.
  all: injection Hin as <- <-.
  all: try (rewrite postBody_undefined; split; [reflexivity|];
            split;
            [ split; [discriminate|];
              intros (pw & x & blob & g' & Hin & _); in_trace Hin
            | intros pw x blob g' Hin; in_trace Hin ]).
  all: match goal with
       | E : encrypt _ _ _ = (Ok ?c, _) |- _ =>
           rewrite (postBody_blob c) by (eapply Hne; exact E);
           split; [reflexivity|]; split;
           [ split; [intros _|reflexivity];
             do 4 eexists; split; [find_in_trace|exact E]
           | intros pw x blob g' Hin Henc; in_trace Hin;
             injection Hin as <- <-; rewrite E in Henc;
             injection Henc as <- _; reflexivity ]
       end.
Qed.

(** C8.  When a run reaches the re-encryption step, the key it encrypts
    is the wallet key recovered with the ECDH secret, the password is
    [newWalletPassphrase] when that parameter is supplied and
    [userPassword] otherwise, and the (non-empty) blob the cipher returns
    is the [encryptedXprv] of the finalize POST that ends the run. *)
Theorem acceptShare_reencrypts (params : value) (w w' : World)
    (r : result value) (t : list event) :
  Wallets.acceptShare params w = (r, w', t) ->
  forall pw x, In (EvEncrypt pw x) t ->
    let newWalletPassphrase := Wallets.param params "newWalletPassphrase" in
    let userPassword := Wallets.param params "userPassword" in
    (truthy newWalletPassphrase = true -> pw = newWalletPassphrase)
    /\ (truthy newWalletPassphrase = false -> pw = userPassword)
    /\ (exists secret sealed recovered,
           In (EvDecrypt (VStr secret) sealed) t
           /\ decrypt (VStr secret) sealed = Ok recovered
           /\ x = VStr recovered)
    /\ (forall blob g',
           encrypt pw x (rng w) = (Ok blob, g') -> blob <> "" ->
           exists pre,
             t = (pre ++ [EvPost (Wallets.walletshare_url
                                    (Wallets.param params "walletShareId"))
                            (VObj [("state", VStr "accepted");
                                   ("encryptedXprv", VStr blob)])])%list).
Proof.
  intros H pw x Hin nwp upw. unfold_acceptShare H. run_paths H.
  all: injection H as <- <- <-.
  all: in_trace Hin.
  all: injection Hin as <- <-.
  all: fold nwp upw; unfold js_or.
  all: repeat split;
    [ now intros ->
    | now intros ->
    | do 3 eexists; split; [find_in_trace|]; split; [eassumption|reflexivity]
    | ].
  all: fold (js_or nwp upw).
  all: match goal with
       | E : encrypt _ _ _ = _ |- _ => unfold nwp, upw; rewrite E
       end.
  all: intros blob g' Henc Hblob.
  all: try discriminate Henc.
  all: injection Henc as <- <-.
  all: rewrite (postBody_blob _ Hblob).
  all: match goal with
       | |- exists pre, ?t = _ => exists (removelast t); reflexivity
       end.
Qed.

(** A run of the key-transfer sequence never writes to the service. *)
Lemma reencryptSharedKey_reads_only (params walletShare sharingKeychain : value)
    (w w' : World) (r : result value) (t : list event) :
  Wallets.reencryptSharedKey params walletShare sharingKeychain w = (r, w', t) ->
  remote w' = remote w /\ mutations t = [].
Proof.
  intros H.
  unfold Wallets.reencryptSharedKey, bitgo_decrypt, bitgo_encrypt,
    bitgo_getECDHSecret, new_BIP32, derive in H.
  run_paths H.
  all: injection H as <- <- <-; split; reflexivity.
Qed.

(** The ways the sequence fails that are named in the design: a sharing
    keychain without [encryptedXprv], a password that does not open it, a
    key that does not parse, a public key that is not a curve point. *)
Lemma reencryptSharedKey_failure_modes
    (params walletShare sharingKeychain sealed : value) (w : World) :
  get_prop sharingKeychain "encryptedXprv" = Ok sealed ->
  let userPassword := Wallets.param params "userPassword" in
  let run := Wallets.reencryptSharedKey (js_or params (VObj []))
               walletShare sharingKeychain w in
  (truthy sealed = false ->
   run = (Throw (Error "EncryptedXprv was not found on sharing keychain"),
          w, []))
  /\ (forall e, truthy sealed = true ->
        decrypt userPassword sealed = Throw e ->
        run = (Throw e, w, [EvDecrypt userPassword sealed]))
  /\ (forall xprv e, truthy sealed = true ->
        decrypt userPassword sealed = Ok xprv ->
        BIP32_new xprv = Throw e ->
        run = (Throw e, w, [EvDecrypt userPassword sealed; EvBIP32 xprv]))
  /\ (forall xprv root keychain path extKey fromPubKey e,
        truthy sealed = true ->
        decrypt userPassword sealed = Ok xprv ->
        BIP32_new xprv = Ok root ->
        get_prop walletShare "keychain" = Ok keychain ->
        get_prop keychain "path" = Ok path ->
        BIP32_derive root path = Ok extKey ->
        get_prop keychain "fromPubKey" = Ok fromPubKey ->
        getECDHSecret (BIP32_eckey extKey) fromPubKey = Throw e ->
        run = (Throw e, w,
               [EvDecrypt userPassword sealed; EvBIP32 xprv; EvDerive path;
                EvGetECDHSecret fromPubKey])).
Proof.
  intros Hsealed userPassword run. subst run userPassword.
  unfold Wallets.reencryptSharedKey, bitgo_decrypt, bitgo_getECDHSecret,
    new_BIP32, derive.
  run_goal. rewrite Hsealed. run_goal.
  repeat split.
  - intros ->. reflexivity.
  - intros e -> Hdec. change (negb true) with false. run_goal. rewrite Hdec. reflexivity.
  - intros xprv e -> Hdec Hkey. change (negb true) with false. run_goal. rewrite Hdec.
    run_goal. rewrite Hkey. reflexivity.
  - intros xprv root keychain path extKey fromPubKey e -> Hdec Hkey Hkc Hpath
      Hder Hpub Hecdh.
    change (negb true) with false. run_goal. rewrite Hdec. run_goal. rewrite Hkey. run_goal.
    rewrite Hkc. run_goal. rewrite Hpath. run_goal. rewrite Hder. run_goal.
    rewrite Hpub. run_goal. rewrite Hecdh. reflexivity.
Qed.

(** C1.  A run of [acceptShare] either issues no write at all, leaves the
    service as it found it and fails; or its only write is the finalize
    POST, issued as the last event of the run, and the outcome is the
    service's answer to it.  When a step of the decrypt / derive /
    re-encrypt sequence fails, the run is of the first kind and fails
    with the error of that step. *)
Theorem acceptShare_commits_last (params : value) (w w' : World)
    (r : result value) (t : list event) :
  Wallets.acceptShare params w = (r, w', t) ->
  let id := Wallets.param params "walletShareId" in
  let u := Wallets.walletshare_url id in
  ((mutations t = [] /\ remote w' = remote w /\ exists e, r = Throw e)
   \/
   (exists pre body,
       t = (pre ++ [EvPost u body])%list /\ mutations pre = []
       /\ http_post u body (remote w) = (r, remote w')))
  /\
  (forall walletShare perms sharingKeychain e w2 t2,
      validateParams (js_or params (VObj [])) ["walletShareId"] [] = Ok tt ->
      validateParams (VObj [("walletShareId", id)]) ["walletShareId"] [] = Ok tt ->
      http_get u (remote w) = Ok walletShare ->
      get_prop walletShare "permissions" = Ok (VStr perms) ->
      perms <> "view" ->
      truthy (Wallets.param params "userPassword") = true ->
      getECDHSharingKeychain (remote w) = Ok sharingKeychain ->
      Wallets.reencryptSharedKey (js_or params (VObj [])) walletShare
        sharingKeychain w = (Throw e, w2, t2) ->
      r = Throw e /\ w' = w2
      /\ t = (EvGet u :: EvGetECDHSharingKeychain :: t2)
      /\ mutations t = [] /\ remote w' = remote w).
Proof.
  intros H id u. split.
  - unfold_acceptShare H. run_paths H.
    all: injection H as <- <- <-.
    all: first
      [ left; split; [reflexivity|]; split; [reflexivity|]; eexists; reflexivity
      | right;
        match goal with
        | |- exists pre body, ?t = _ /\ _ =>
            exists (removelast t); eexists;
            split; [reflexivity|]; split; [reflexivity|]; eassumption
        end ].
  - intros ws perms sk e w2 t2 Hv1 Hv2 Hget Hperm Hview Hpw Hsk Hseq.
    destruct (reencryptSharedKey_reads_only _ _ _ _ _ _ _ Hseq) as [Hrem Hmut].
    unfold Wallets.acceptShare, Wallets.getShare, Wallets.processShare,
      bitgo_get, bitgo_getECDHSharingKeychain in H.
    run_in H. rewrite Hv1 in H. run_in H. fold id in H. rewrite Hv2 in H.
    fold u in H. rewrite Hget in H. run_in H. rewrite Hperm in H.
    simpl split_comma in H. run_in H.
    rewrite (only_view_false _ Hview) in H. run_in H.
    rewrite Hpw in H. simpl negb in H. run_in H. rewrite Hsk in H.
    run_in H. rewrite (bind_step _ _ _ _ _ _ Hseq) in H. cbn [logged app] in H.
    injection H as <- <- <-.
    repeat split; assumption.
Qed.

(** C2.  As the code has it: a share whose permission string is anything
    but ["view"], accepted without [userPassword], fails with the
    missing-credential error ("userPassword param must be provided to
    decrypt shared key").  The share has been fetched by then, since the
    permissions are read from it; that read is the only network call of
    the run: the sharing keychain is not fetched, nothing is posted and
    the service is left as it was. *)
Theorem acceptShare_missing_password (params walletShare : value)
    (perms : string) (w : World) :
  let id := Wallets.param params "walletShareId" in
  let u := Wallets.walletshare_url id in
  validateParams (js_or params (VObj [])) ["walletShareId"] [] = Ok tt ->
  validateParams (VObj [("walletShareId", id)]) ["walletShareId"] [] = Ok tt ->
  http_get u (remote w) = Ok walletShare ->
  get_prop walletShare "permissions" = Ok (VStr perms) ->
  perms <> "view" ->
  Wallets.param params "userPassword" = VUndefined ->
  Wallets.acceptShare params w
  = (Throw (Error "userPassword param must be provided to decrypt shared key"),
     w, [EvGet u])
  /\ network_calls [EvGet u] = [EvGet u]
  /\ mutations [EvGet u] = [].
Proof.
  intros id u Hv1 Hv2 Hget Hperm Hview Hpw.
  split; [|split; reflexivity].
  unfold Wallets.acceptShare, Wallets.getShare, Wallets.processShare, bitgo_get.
  run_goal. rewrite Hv1. run_goal. fold id. rewrite Hv2. fold u.
  rewrite Hget. run_goal. rewrite Hperm. simpl split_comma. run_goal.
  rewrite (only_view_false _ Hview). run_goal. rewrite Hpw. reflexivity.
Qed.

End AcceptShare.

(** ** Adding a wallet *)

Section Add.
Context {C : Collaborators}.

Lemma add_walletParams_keychains label m n ks ent :
  lookup "keychains" (Wallets.add_walletParams label m n ks ent) = VArr ks.
Proof. unfold Wallets.add_walletParams. destruct (truthy ent); reflexivity. Qed.

Lemma map_xpub_only_same (l1 l2 : list value) :
  Forall2 Wallets.same_xpub l1 l2 ->
  Wallets.map_throwing Wallets.xpub_only l1
  = Wallets.map_throwing Wallets.xpub_only l2.
Proof.
  induction 1 as [|k1 k2 l1 l2 Hk _ IH]; [reflexivity|].
  simpl. unfold Wallets.xpub_only at 1 3. rewrite Hk, IH. reflexivity.
Qed.

(** Every object [map] builds has the single field [xpub], read from the
    entry at the same position. *)
Lemma map_xpub_only_shape (l ks : list value) :
  Wallets.map_throwing Wallets.xpub_only l = Ok ks ->
  Forall2 (fun entry k => exists x, get_prop entry "xpub" = Ok x
                                    /\ k = VObj [("xpub", x)]) l ks.
Proof.
  revert ks. induction l as [|entry l IH]; simpl; intros ks H.
  - injection H as <-. constructor.
  - unfold Wallets.xpub_only at 1 in H.
    destruct (get_prop entry "xpub") as [x|e] eqn:Ex; [|discriminate].
    destruct (Wallets.map_throwing Wallets.xpub_only l) as [ks'|e] eqn:El;
      [|discriminate].
    injection H as <-. constructor; eauto.
Qed.

Ltac unfold_add H :=
  unfold Wallets.add, bitgo_post in H.

(** C6.  With an array of keychains and numbers for [m] and [n], any
    [m], [n] other than 2 and 3 makes [add] fail before it issues any
    call: the error is "unsupported multi-sig type" (the invalid-argument
    error of line 274) once the parameter validation has passed, and the
    validation's own error otherwise; the service is not contacted. *)
Theorem add_unsupported_multisig (params : value) (entries : list value)
    (m n : Z) (w : World) :
  Wallets.param params "keychains" = VArr entries ->
  Wallets.param params "m" = VNum m ->
  Wallets.param params "n" = VNum n ->
  (m <> 2 \/ n <> 3)%Z ->
  exists e,
    Wallets.add params w = (Throw e, w, [])
    /\ (forall ok, validateParams (js_or params (VObj [])) []
                     ["label"; "enterprise"] = Ok ok ->
                   e = Error "unsupported multi-sig type").
Proof.
  intros Hk Hm Hn Hmn. unfold Wallets.add. run_goal.
  destruct (validateParams (js_or params (VObj [])) [] ["label"; "enterprise"])
    as [ok|e0] eqn:Hv.
  - exists (Error "unsupported multi-sig type").
    split; [|reflexivity].
    run_goal. rewrite Hk, Hm, Hn.
    assert (Hguard : negb (m =? 2)%Z || negb (n =? 3)%Z = true).
    { destruct Hmn as [H|H]; apply Z.eqb_neq in H; rewrite H;
        [reflexivity | apply orb_true_r]. }
    rewrite Hguard. reflexivity.
  - exists e0. split; [reflexivity|discriminate].
Qed.

(** C9.  What [add] posts is a function of the [xpub] of each keychain
    entry and of nothing else the entries hold: two calls whose entries
    agree on [xpub] position by position (and on [label], [m], [n] and
    [enterprise], and are validated alike) run identically; the body
    posted is rebuilt from [label], [m], [n], [enterprise] and a list of
    objects with the single field [xpub]. *)
Theorem add_sends_xpub_only (p1 p2 : value) (l1 l2 : list value) (w : World) :
  Wallets.param p1 "keychains" = VArr l1 ->
  Wallets.param p2 "keychains" = VArr l2 ->
  Forall2 Wallets.same_xpub l1 l2 ->
  Wallets.param p1 "label" = Wallets.param p2 "label" ->
  Wallets.param p1 "m" = Wallets.param p2 "m" ->
  Wallets.param p1 "n" = Wallets.param p2 "n" ->
  Wallets.param p1 "enterprise" = Wallets.param p2 "enterprise" ->
  validateParams (js_or p1 (VObj [])) [] ["label"; "enterprise"]
  = validateParams (js_or p2 (VObj [])) [] ["label"; "enterprise"] ->
  Wallets.add p1 w = Wallets.add p2 w
  /\ forall u body,
       In (EvPost u body) (snd (Wallets.add p1 w)) ->
       exists ks,
         body = VObj (Wallets.add_walletParams (Wallets.param p1 "label")
                        2 3 ks (Wallets.param p1 "enterprise"))
         /\ get_prop body "keychains" = Ok (VArr ks)
         /\ Forall2 (fun entry k => exists x, get_prop entry "xpub" = Ok x
                                              /\ k = VObj [("xpub", x)]) l1 ks.
Proof.
  intros Hk1 Hk2 Hsame Hlabel Hm Hn Hent Hv. split.
  - unfold Wallets.add. run_goal.
    rewrite Hv, Hk1, Hk2, Hlabel, Hm, Hn, Hent, (map_xpub_only_same _ _ Hsame).
    reflexivity.
  - intros u body Hin.
    destruct (Wallets.add p1 w) as [[r w'] t] eqn:H. simpl in Hin.
    unfold_add H. run_in H. rewrite Hk1 in H. run_paths H.
    all: injection H as <- <- <-.
    all: in_trace Hin.
    all: injection Hin as <- <-.
    all: match goal with
         | E : negb _ || negb _ = false |- _ =>
             let Hm2 := fresh "Hm2" in
             let Hn3 := fresh "Hn3" in
             apply orb_false_iff in E; destruct E as [Hm2 Hn3];
             apply negb_false_iff in Hm2, Hn3;
             apply Z.eqb_eq in Hm2, Hn3; subst
         end.
    all: eexists; split; [reflexivity|]; split;
      [ simpl; rewrite add_walletParams_keychains; reflexivity
      | now apply map_xpub_only_shape ].
Qed.

End Add.

(** ** Creating a wallet with its keychains *)

Section Create.
Context {C : Collaborators}.

Lemma bind_keychains_create {B} (f : obj -> M B) w :
  bind bitgo_keychains_create f w
  = match keychains_create (rng w) with
    | (Ok k, g') =>
        logged [EvKeychainsCreate] (f (keychain_obj k) (mkWorld (remote w) g'))
    | (Throw e, g') => (Throw e, mkWorld (remote w) g', [EvKeychainsCreate])
    end.
Proof.
  unfold bitgo_keychains_create. rewrite bind_drawing.
  destruct (keychains_create (rng w)) as [[k|e] g']; reflexivity.
Qed.

Lemma map_xpub_only_created (ux bx sx : value) :
  Wallets.map_throwing Wallets.xpub_only
    [VObj [("xpub", ux)]; VObj [("xpub", bx)]; VObj [("xpub", sx)]]
  = Ok [VObj [("xpub", ux)]; VObj [("xpub", bx)]; VObj [("xpub", sx)]].
Proof. reflexivity. Qed.

(** [add] rebuilds, field by field, the request that
    [createWalletWithKeychains] hands it, and posts it. *)
Lemma add_created (label ux bx sx ent : value) w :
  Wallets.add (VObj (Wallets.create_walletParams label ux bx sx ent)) w
  = (lift (validateParams
             (VObj (Wallets.create_walletParams label ux bx sx ent))
             [] ["label"; "enterprise"]) ;;;
     body <- writing
               (EvPost (url "/wallet")
                  (VObj (Wallets.create_walletParams label ux bx sx ent)))
               (http_post (url "/wallet")
                  (VObj (Wallets.create_walletParams label ux bx sx ent))) ;;
     ret (Wallets.new_Wallet body)) w.
Proof.
  unfold Wallets.add, bitgo_post. rewrite js_or_obj, !bind_lift.
  destruct (validateParams _ [] ["label"; "enterprise"]); [|reflexivity].
  unfold Wallets.create_walletParams.
  destruct (truthy ent) eqn:Hent; simpl get_prop;
    repeat (progress (cbv beta iota; rewrite ?bind_lift));
    rewrite !Z.eqb_refl; change (negb true || negb true) with false;
    repeat (progress (cbv beta iota;
                      rewrite ?bind_lift, ?map_xpub_only_created));
    unfold Wallets.add_walletParams; simpl truthy; rewrite ?Hent; reflexivity.
Qed.

Lemma bind_add_created {B} (label ux bx sx ent : value)
    (f : Wallets.Wallet -> M B) w :
  bind (Wallets.add (VObj (Wallets.create_walletParams label ux bx sx ent))) f w
  = bind (lift (validateParams
                  (VObj (Wallets.create_walletParams label ux bx sx ent))
                  [] ["label"; "enterprise"]) ;;;
          body <- writing
                    (EvPost (url "/wallet")
                       (VObj (Wallets.create_walletParams label ux bx sx ent)))
                    (http_post (url "/wallet")
                       (VObj (Wallets.create_walletParams label ux bx sx ent))) ;;
          ret (Wallets.new_Wallet body)) f w.
Proof.
  unfold bind at 1 3. rewrite add_created. reflexivity.
Qed.

Lemma create_walletParams_keychains label ux bx sx ent :
  lookup "keychains" (Wallets.create_walletParams label ux bx sx ent)
  = VArr [VObj [("xpub", ux)]; VObj [("xpub", bx)]; VObj [("xpub", sx)]].
Proof. unfold Wallets.create_walletParams. destruct (truthy ent); reflexivity. Qed.

Ltac unfold_create H :=
  unfold Wallets.createWalletWithKeychains, bitgo_encrypt, bitgo_keychains_add,
    bitgo_keychains_createBitGo in H.

Ltac run_create H :=
  run_in H;
  repeat (first [ rewrite bind_keychains_create in H
                | rewrite bind_add_created in H
                | run_case H ];
          run_in H);
  cbn [logged app] in H; cbn [remote rng] in *.


(** C5.  A run of [createWalletWithKeychains] either never posts a
    wallet and fails, or ends with exactly this sequence of writes: the
    user keychain registered, then the backup keychain registered, then
    the service keychain created -- each one answered successfully, each
    on the state the previous one left -- and only then the wallet POST,
    whose three keychains are the [xpub]s of those three.  Nothing is
    written before the first registration. *)
Theorem createWallet_registers_before_wallet (params : value) (w w' : World)
    (r : result Wallets.Created) (t : list event) :
  Wallets.createWalletWithKeychains params w = (r, w', t) ->
  ((forall u body, ~ In (EvPost u body) t) /\ exists e, r = Throw e)
  \/
  (exists pre key1 key2 body k1 rem1 k2 rem2 k3 rem3 ux bx sx,
      t = (pre ++ [EvKeychainsAdd key1; EvKeychainsAdd key2;
                   EvKeychainsCreateBitGo; EvPost (url "/wallet") body])%list
      /\ mutations pre = []
      /\ keychains_add key1 (remote w) = (Ok k1, rem1)
      /\ keychains_add key2 rem1 = (Ok k2, rem2)
      /\ keychains_createBitGo rem2 = (Ok k3, rem3)
      /\ get_prop key1 "xpub" = Ok ux
      /\ get_prop key2 "xpub" = Ok bx
      /\ get_prop k3 "xpub" = Ok sx
      /\ get_prop body "keychains"
         = Ok (VArr [VObj [("xpub", ux)]; VObj [("xpub", bx)];
                     VObj [("xpub", sx)]])
      /\ http_post (url "/wallet") body rem3
         = (match r with
            | Ok res => Ok (Wallets.wallet_data (Wallets.wallet res))
            | Throw e => Throw e
            end, remote w')).
Proof.
  intros H. unfold_create H. run_create H.
  all: injection H as <- <- <-.
  all: first
    [ solve [ left; split;
              [ intros u body Hin; in_trace Hin | eexists; reflexivity ] ]
    | right ].
  all: match goal with
       | |- exists pre key1 key2 body k1 rem1 k2 rem2 k3 rem3 ux bx sx,
              ?t = _ /\ _ =>
           exists (firstn (length t - 4) t)
       end.
  all: do 12 eexists.
  all: split; [reflexivity|]; split; [reflexivity|].
  all: split; [eassumption|]; split; [eassumption|]; split; [eassumption|].
  all: split; [reflexivity|]; split; [reflexivity|]; split; [eassumption|].
  all: split; [simpl; rewrite create_walletParams_keychains; reflexivity|].
  all: eassumption.
Qed.

(** C7.  A successful call without [backupXpub], for a cipher that
    decrypts what it encrypted: the wallet POST that ends the run carries
    exactly three keychains, the [xpub]s of the user, backup and service
    keychains returned; the returned user keychain is
    [{xpub, xprv, encryptedXprv}] where [encryptedXprv] is the cipher's
    output for the user [xprv] under [passphrase], so that decrypting it
    under [passphrase] gives the user [xprv] back; and the user
    registration is [{xpub, encryptedXprv}]: no registration has an
    [xprv] field. *)
Theorem createWallet_composition (params : value) (w w' : World)
    (res : Wallets.Created) (t : list event) :
  (forall p m g c g',
      encrypt p (VStr m) g = (Ok c, g') -> decrypt p (VStr c) = Ok m) ->
  Wallets.param params "backupXpub" = VUndefined ->
  Wallets.createWalletWithKeychains params w = (Ok res, w', t) ->
  let passphrase := Wallets.param params "passphrase" in
  exists ux xprv blob bx sx g g',
    Wallets.userKeychain res
    = [("xpub", VStr ux); ("xprv", VStr xprv); ("encryptedXprv", VStr blob)]
    /\ encrypt passphrase (VStr xprv) g = (Ok blob, g')
    /\ decrypt passphrase (VStr blob) = Ok xprv
    /\ lookup "xpub" (Wallets.backupKeychain res) = bx
    /\ get_prop (Wallets.bitgoKeychain res) "xpub" = Ok sx
    /\ (exists pre body,
           t = (pre ++ [EvPost (url "/wallet") body])%list
           /\ get_prop body "keychains"
              = Ok (VArr [VObj [("xpub", VStr ux)]; VObj [("xpub", bx)];
                          VObj [("xpub", sx)]]))
    /\ In (EvKeychainsAdd
             (VObj [("xpub", VStr ux); ("encryptedXprv", VStr blob)])) t
    /\ (forall p, In (EvKeychainsAdd p) t -> has_own p "xprv" = false).
Proof.
  intros Hcipher Hbackup H passphrase. unfold_create H. run_create H.
  all: try discriminate H.
  all: injection H as <- <- <-.
  all: rewrite Hbackup in *; try discriminate.
  all: do 7 eexists.
  all: split; [reflexivity|]; split; [eassumption|].
  all: split; [eapply Hcipher; eassumption|].
  all: split; [reflexivity|]; split; [eassumption|].
  all: split;
    [ match goal with
      | |- exists pre body, ?t = _ /\ _ =>
          exists (removelast t); eexists; split; [reflexivity|];
          simpl; rewrite create_walletParams_keychains; reflexivity
      end |].
  all: split; [find_in_trace|].
  all: intros p Hin; in_trace Hin; injection Hin as <-; reflexivity.
Qed.

End Create.

(** ** The concrete session at work *)

Section MockSession.

Lemma strip_prefix_app (p m : string) : Mock.strip_prefix p (p ++ m) = Some m.
Proof.
  induction p as [|a p IH]; simpl.
  - destruct m; reflexivity.
  - rewrite Ascii.eqb_refl. exact IH.
Defined.

Lemma mock_round_trip (p : value) (m : string) (g : nat) (c : string)
    (g' : nat) :
  Mock.mock_encrypt p (VStr m) g = (Ok c, g') ->
  Mock.mock_decrypt p (VStr c) = Ok m.
Proof.
  intros H. destruct p; simpl in H; try discriminate H.
  injection H as <- _. unfold Mock.mock_decrypt, Mock.seal.
  rewrite strip_prefix_app. reflexivity.
Defined.

Lemma mock_blob_nonempty (p m : value) (g : nat) (c : string) (g' : nat) :
  Mock.mock_encrypt p m g = (Ok c, g') -> c <> "".
Proof.
  destruct p; simpl; try discriminate. destruct m; simpl; try discriminate.
  intros H. injection H as <- _. unfold Mock.seal.
  destruct s; discriminate.
Defined.

(** The recipient types a wrong password: the sharing keychain does not
    open, and nothing was written. *)
Lemma acceptShare_commits_last_witness :
  exists e t,
    Mock.accept Mock.accept_spend_wrong_password = (Throw e, Mock.world0, t)
    /\ mutations t = []
    /\ e = Error "ccm: tag doesn't match".
Proof.
  pose (e := Error "ccm: tag doesn't match").
  pose (t2 := [EvDecrypt (VStr "wrong") (VStr (Mock.seal "hunter2" "xprvSHARING"))]).
  pose (t := EvGet (Mock.mock_url "/walletshare/share2")
             :: EvGetECDHSharingKeychain :: t2).
  exists e, t.
  destruct (acceptShare_commits_last (C := Mock.session)
              Mock.accept_spend_wrong_password Mock.world0 Mock.world0
              (Throw e) t eq_refl) as [_ Hsteps].
  destruct (Hsteps Mock.share_spend "spend,view" Mock.sharing_keychain e
              Mock.world0 t2 eq_refl eq_refl eq_refl eq_refl
              ltac:(discriminate) eq_refl eq_refl eq_refl)
    as (_ & _ & _ & Hmut & _).
  split; [reflexivity|]. split; [exact Hmut|reflexivity].
Defined.

(** Accepting a spend share without a password does fail for want of
    the password, but not without a network call: the share was fetched
    first. *)
Lemma acceptShare_missing_password_has_fetched :
  ~ (fst (fst (Mock.accept Mock.accept_spend_no_password))
     = Throw (Error "userPassword param must be provided to decrypt shared key")
     /\ network_calls (snd (Mock.accept Mock.accept_spend_no_password)) = []).
Proof.
  intros [_ H]. vm_compute in H. discriminate H.
Qed.

Lemma acceptShare_missing_password_witness :
  Mock.accept Mock.accept_spend_no_password
  = (Throw (Error "userPassword param must be provided to decrypt shared key"),
     Mock.world0, [EvGet (Mock.mock_url "/walletshare/share2")]).
Proof.
  exact (proj1 (acceptShare_missing_password (C := Mock.session)
                  Mock.accept_spend_no_password Mock.share_spend
                  (join_comma ["spend"; "view"])
                  Mock.world0 eq_refl eq_refl eq_refl eq_refl
                  (more_than_view ["spend"; "view"] "spend" eq_refl
                     (or_introl eq_refl) ltac:(discriminate))
                  eq_refl)).
Defined.

Lemma acceptShare_view_only_shortcut_witness :
  exists body,
    Mock.accept Mock.accept_view
    = (Ok (VObj [("state", VStr "accepted")]),
       @mkWorld Mock.session
         [(Mock.mock_url "/walletshare/share1",
           VObj [("state", VStr "accepted")])] 0,
       [EvGet (Mock.mock_url "/walletshare/share1");
        EvPost (Mock.mock_url "/walletshare/share1") body])
    /\ has_own body "encryptedXprv" = false.
Proof.
  destruct (acceptShare_view_only_shortcut (C := Mock.session)
              Mock.accept_view Mock.share_view
              (VObj [("state", VStr "accepted")]) Mock.world0
              [(Mock.mock_url "/walletshare/share1",
                VObj [("state", VStr "accepted")])]
              eq_refl eq_refl eq_refl eq_refl eq_refl eq_refl)
    as (body & Hrun & _ & _ & Hfield).
  exists body. split; [exact Hrun|exact Hfield].
Defined.

Lemma acceptShare_reencrypts_witness :
  exists r w' t,
    Mock.accept Mock.accept_spend = (r, w', t)
    /\ In (EvEncrypt (VStr "newpass123") (VStr "xprvWALLET")) t
    /\ exists pre,
         t = (pre ++ [EvPost (Mock.mock_url "/walletshare/share2")
                        (VObj [("state", VStr "accepted");
                               ("encryptedXprv",
                                VStr (Mock.seal "newpass123" "xprvWALLET"))])])%list.
Proof.
  destruct (Mock.accept Mock.accept_spend) as [[r w'] t] eqn:Hrun.
  exists r, w', t. split; [reflexivity|].
  assert (Hin : In (EvEncrypt (VStr "newpass123") (VStr "xprvWALLET")) t).
  { vm_compute in Hrun. injection Hrun as _ _ <-. find_in_trace. }
  split; [exact Hin|].
  destruct (acceptShare_reencrypts (C := Mock.session) Mock.accept_spend
              Mock.world0 w' r t Hrun _ _ Hin) as (_ & _ & _ & Hpost).
  exact (Hpost (Mock.seal "newpass123" "xprvWALLET") 1%nat eq_refl
           ltac:(discriminate)).
Defined.

Lemma acceptShare_payload_witness :
  exists r w' t u body,
    Mock.accept Mock.accept_spend = (r, w', t)
    /\ In (EvPost u body) t
    /\ get_prop body "state" = Ok (VStr "accepted")
    /\ has_own body "encryptedXprv" = true.
Proof.
  destruct (Mock.accept Mock.accept_spend) as [[r w'] t] eqn:Hrun.
  pose (u := Mock.mock_url "/walletshare/share2").
  pose (body := VObj [("state", VStr "accepted");
                      ("encryptedXprv",
                       VStr (Mock.seal "newpass123" "xprvWALLET"))]).
  exists r, w', t, u, body. split; [reflexivity|].
  assert (Hin : In (EvPost u body) t).
  { vm_compute in Hrun. injection Hrun as _ _ <-. find_in_trace. }
  split; [exact Hin|].
  destruct (acceptShare_payload (C := Mock.session) Mock.accept_spend
              Mock.world0 w' r t mock_blob_nonempty Hrun u body Hin)
    as (Hstate & _ & _).
  split; [exact Hstate|reflexivity].
Defined.

Lemma add_unsupported_multisig_witness :
  Mock.add Mock.add_3_of_5
  = (Throw (Error "unsupported multi-sig type"), Mock.world0, []).
Proof.
  destruct (add_unsupported_multisig (C := Mock.session) Mock.add_3_of_5
              [VObj [("xpub", VStr "xpubA")]] 3 5 Mock.world0
              eq_refl eq_refl eq_refl ltac:(left; discriminate))
    as (e & Hrun & He).
  rewrite (He tt eq_refl) in Hrun. exact Hrun.
Defined.

Lemma add_sends_xpub_only_witness :
  Mock.add Mock.add_with_private_fields = Mock.add Mock.add_public_only.
Proof.
  refine (proj1 (add_sends_xpub_only (C := Mock.session)
                   Mock.add_with_private_fields Mock.add_public_only
                   _ _ Mock.world0 eq_refl eq_refl _
                   eq_refl eq_refl eq_refl eq_refl eq_refl)).
  repeat constructor.
Defined.


Lemma createWallet_registers_before_wallet_witness :
  exists r w' t pre key1 key2 body,
    Mock.create Mock.create_params = (r, w', t)
    /\ t = (pre ++ [EvKeychainsAdd key1; EvKeychainsAdd key2;
                    EvKeychainsCreateBitGo;
                    EvPost (Mock.mock_url "/wallet") body])%list
    /\ mutations pre = [].
Proof.
  destruct (Mock.create Mock.create_params) as [[r w'] t] eqn:Hrun.
  pose proof (createWallet_registers_before_wallet (C := Mock.session)
                Mock.create_params Mock.world0 w' r t Hrun) as H.
  vm_compute in Hrun. injection Hrun as <- <- <-.
  destruct H as [[H _] | (pre & key1 & key2 & body & k1 & rem1 & k2 & rem2
                          & k3 & rem3 & ux & bx & sx & Ht & Hpre & _)].
  - exfalso. apply (H (Mock.mock_url "/wallet")
                      (VObj (Wallets.create_walletParams (VStr "L")
                               (VStr "xpub0") (VStr "xpub2")
                               (VStr "xpubBITGO") VUndefined))).
    find_in_trace.
  - do 3 eexists. exists pre, key1, key2, body.
    split; [reflexivity|]. split; [exact Ht|exact Hpre].
Defined.

Lemma createWallet_composition_witness :
  exists res w' t,
    Mock.create Mock.create_params = (Ok res, w', t)
    /\ Wallets.userKeychain res
       = [("xpub", VStr "xpub0"); ("xprv", VStr "xprv0");
          ("encryptedXprv", VStr (Mock.seal "p@ss" "xprv0"))]
    /\ decrypt (Collaborators := Mock.session) (VStr "p@ss")
         (VStr (Mock.seal "p@ss" "xprv0")) = Ok "xprv0".
Proof.
  do 3 eexists. split; [reflexivity|].
  match goal with
  | |- Wallets.userKeychain ?res = _ /\ _ =>
      destruct (createWallet_composition (C := Mock.session)
                  Mock.create_params Mock.world0 _ res _
                  mock_round_trip eq_refl eq_refl)
        as (ux & xprv & blob & bx & sx & g & g' & Hk & _ & Hdec & _)
  end.
  split; [reflexivity|].
  simpl in Hk. injection Hk as <- <- <-. exact Hdec.
Defined.

End MockSession.

(** * Further properties of the code *)

(** ** Accepting a share: edges and composition *)

Ltac open_acceptShare H :=
  unfold Wallets.acceptShare, Wallets.getShare, Wallets.processShare,
    Wallets.finalizeShare, Wallets.reencryptSharedKey, bitgo_get, bitgo_post,
    bitgo_getECDHSharingKeychain, bitgo_decrypt, bitgo_encrypt,
    bitgo_getECDHSecret, new_BIP32, derive in H.

Section AcceptShareEdges.
Context {C : Collaborators}.

Lemma logged_nil_run {A} (x : result A * World * list event) :
  logged [] x = x.
Proof. destruct x as [[r w] t]. reflexivity. Qed.

(** Once the share is fetched, the rest of the run is the two [then]
    callbacks. *)
Lemma acceptShare_after_fetch (params walletShare : value) (w : World) :
  let id := Wallets.param params "walletShareId" in
  let u := Wallets.walletshare_url id in
  validateParams (js_or params (VObj [])) ["walletShareId"] [] = Ok tt ->
  validateParams (VObj [("walletShareId", id)]) ["walletShareId"] [] = Ok tt ->
  http_get u (remote w) = Ok walletShare ->
  Wallets.acceptShare params w
  = logged [EvGet u]
      ((st <- Wallets.processShare (js_or params (VObj [])) walletShare ;;
        Wallets.finalizeShare (js_or params (VObj [])) st) w).
Proof.
  intros id u Hv1 Hv2 Hget.
  unfold Wallets.acceptShare, Wallets.getShare, bitgo_get.
  run_goal. rewrite Hv1. run_goal. fold id. rewrite Hv2. fold u.
  rewrite Hget. reflexivity.
Qed.

Lemma processShare_view (params walletShare : value) (w : World) :
  get_prop walletShare "permissions" = Ok (VStr "view") ->
  Wallets.processShare params walletShare w
  = (Ok (walletShare, VUndefined), w, []).
Proof.
  intros Hperm. unfold Wallets.processShare. run_goal. rewrite Hperm.
  reflexivity.
Qed.

Lemma processShare_no_password (params walletShare : value) (perms : string)
    (w : World) :
  get_prop walletShare "permissions" = Ok (VStr perms) ->
  perms <> "view" ->
  truthy (Wallets.param params "userPassword") = false ->
  Wallets.processShare (js_or params (VObj [])) walletShare w
  = (Throw (Error "userPassword param must be provided to decrypt shared key"),
     w, []).
Proof.
  intros Hperm Hview Hpw. unfold Wallets.processShare. run_goal.
  rewrite Hperm. simpl split_comma. run_goal.
  rewrite (only_view_false _ Hview). run_goal. rewrite Hpw. reflexivity.
Qed.

Lemma finalizeShare_run (params walletShare x : value) (w : World) :
  let u := Wallets.walletshare_url (Wallets.param params "walletShareId") in
  Wallets.finalizeShare (js_or params (VObj [])) (walletShare, x) w
  = (fst (http_post u (VObj (Wallets.postBody x)) (remote w)),
     mkWorld (snd (http_post u (VObj (Wallets.postBody x)) (remote w))) (rng w),
     [EvPost u (VObj (Wallets.postBody x))]).
Proof.
  intros u. unfold Wallets.finalizeShare, bitgo_post. run_goal. fold u.
  simpl snd.
  destruct (http_post u (VObj (Wallets.postBody x)) (remote w)) as [[res|e] rem];
    reflexivity.
Qed.

(** X4.  The service is called at most three times, in this order: the fetch
    of the share, the fetch of the sharing keychain, the finalize POST;
    and the POST goes to the address the share was fetched from. *)
Theorem acceptShare_network_shape (params : value) (w w' : World)
    (r : result value) (t : list event) :
  Wallets.acceptShare params w = (r, w', t) ->
  let u := Wallets.walletshare_url (Wallets.param params "walletShareId") in
  network_calls t = []
  \/ network_calls t = [EvGet u]
  \/ network_calls t = [EvGet u; EvGetECDHSharingKeychain]
  \/ (exists body, network_calls t = [EvGet u; EvPost u body])
  \/ (exists body,
         network_calls t = [EvGet u; EvGetECDHSharingKeychain; EvPost u body]).
Proof.
  intros H u. open_acceptShare H. run_paths H.
  all: injection H as <- <- <-.
  all: first
    [ left; reflexivity
    | right; left; reflexivity
    | right; right; left; reflexivity
    | right; right; right; left; eexists; reflexivity
    | right; right; right; right; eexists; reflexivity ].
Qed.

(** X5.  On a view-only share the credentials play no part: two calls for the
    same share that differ in [userPassword] and [newWalletPassphrase]
    (or in anything but [walletShareId]) run identically. *)
Theorem acceptShare_view_ignores_credentials (p1 p2 walletShare : value)
    (w : World) :
  let id := Wallets.param p1 "walletShareId" in
  Wallets.param p2 "walletShareId" = id ->
  validateParams (js_or p2 (VObj [])) ["walletShareId"] []
  = validateParams (js_or p1 (VObj [])) ["walletShareId"] [] ->
  http_get (Wallets.walletshare_url id) (remote w) = Ok walletShare ->
  get_prop walletShare "permissions" = Ok (VStr "view") ->
  Wallets.acceptShare p1 w = Wallets.acceptShare p2 w.
Proof.
  intros id Hid Hv Hget Hperm.
  unfold Wallets.acceptShare, Wallets.getShare, bitgo_get.
  run_goal. rewrite Hv, Hid. fold id.
  destruct (validateParams (js_or p1 (VObj [])) ["walletShareId"] []);
    [|reflexivity].
  run_goal.
  destruct (validateParams (VObj [("walletShareId", id)]) ["walletShareId"] []);
    [|reflexivity].
  rewrite Hget.
  rewrite !(bind_step _ _ _ _ _ _ (processShare_view _ _ _ Hperm)).
  rewrite !logged_nil_run, !finalizeShare_run, Hid. reflexivity.
Qed.

(** X6.  A password that is given but falsy -- the empty string, [0], [null],
    [false] -- counts as no password: on a share that is not view-only
    the call fails with the missing-password error right after the
    fetch. *)
Theorem acceptShare_falsy_password (params walletShare : value)
    (perms : string) (w : World) :
  let id := Wallets.param params "walletShareId" in
  let u := Wallets.walletshare_url id in
  validateParams (js_or params (VObj [])) ["walletShareId"] [] = Ok tt ->
  validateParams (VObj [("walletShareId", id)]) ["walletShareId"] [] = Ok tt ->
  http_get u (remote w) = Ok walletShare ->
  get_prop walletShare "permissions" = Ok (VStr perms) ->
  perms <> "view" ->
  truthy (Wallets.param params "userPassword") = false ->
  Wallets.acceptShare params w
  = (Throw (Error "userPassword param must be provided to decrypt shared key"),
     w, [EvGet u]).
Proof.
  intros id u Hv1 Hv2 Hget Hperm Hview Hpw.
  rewrite (acceptShare_after_fetch params walletShare w Hv1 Hv2 Hget).
  rewrite (bind_step _ _ _ _ _ _
             (processShare_no_password params walletShare perms w
                Hperm Hview Hpw)).
  reflexivity.
Qed.

(** X7.  Without a password, the acceptance is posted exactly when the
    permission string of the fetched share is ["view"]: any other string
    (["view,spend"], ["view,view"], ["View"], the empty string) stops the
    run before the POST. *)
Theorem acceptShare_posts_iff_view (params walletShare : value)
    (perms : string) (w : World) :
  let id := Wallets.param params "walletShareId" in
  let u := Wallets.walletshare_url id in
  validateParams (js_or params (VObj [])) ["walletShareId"] [] = Ok tt ->
  validateParams (VObj [("walletShareId", id)]) ["walletShareId"] [] = Ok tt ->
  http_get u (remote w) = Ok walletShare ->
  get_prop walletShare "permissions" = Ok (VStr perms) ->
  truthy (Wallets.param params "userPassword") = false ->
  (exists u' body, In (EvPost u' body) (snd (Wallets.acceptShare params w)))
  <-> perms = "view".
Proof.
  intros id u Hv1 Hv2 Hget Hperm Hpw.
  rewrite (acceptShare_after_fetch params walletShare w Hv1 Hv2 Hget).
  split.
  - intros (u' & body & Hin).
    destruct (string_dec perms "view") as [Heq|Hne]; [exact Heq|].
    rewrite (bind_step _ _ _ _ _ _
               (processShare_no_password params walletShare perms w
                  Hperm Hne Hpw)) in Hin.
    in_trace Hin.
  - intros ->.
    rewrite (bind_step _ _ _ _ _ _ (processShare_view _ _ w Hperm)).
    rewrite logged_nil_run, finalizeShare_run.
    do 2 eexists. cbn [logged snd app]. right. left. reflexivity.
Qed.

(** X8.  A fetched share that has no permission string -- the answer is
    [null] or [undefined], has no [permissions], or has one that is not
    a string -- makes the call fail with a [TypeError] right after the
    fetch. *)
Theorem acceptShare_malformed_share (params walletShare : value) (w : World) :
  let id := Wallets.param params "walletShareId" in
  let u := Wallets.walletshare_url id in
  validateParams (js_or params (VObj [])) ["walletShareId"] [] = Ok tt ->
  validateParams (VObj [("walletShareId", id)]) ["walletShareId"] [] = Ok tt ->
  http_get u (remote w) = Ok walletShare ->
  (forall s, get_prop walletShare "permissions" <> Ok (VStr s)) ->
  exists message,
    Wallets.acceptShare params w = (Throw (TypeError message), w, [EvGet u]).
Proof.
  intros id u Hv1 Hv2 Hget Hperm.
  rewrite (acceptShare_after_fetch params walletShare w Hv1 Hv2 Hget).
  unfold Wallets.processShare. run_goal.
  destruct (get_prop walletShare "permissions") as [v|e] eqn:E.
  - run_goal. destruct v; simpl split_comma; run_goal;
      try (eexists; reflexivity).
    now elim (Hperm s).
  - destruct walletShare; simpl in E; try discriminate E;
      injection E as <-; eexists; reflexivity.
Qed.


End AcceptShareEdges.

(** ** Adding a wallet: edges *)

Section AddEdges.
Context {C : Collaborators}.

Lemma map_xpub_only_nullish (entries : list value) :
  existsb is_nullish entries = true ->
  exists message,
    Wallets.map_throwing Wallets.xpub_only entries = Throw (TypeError message).
Proof.
  induction entries as [|k entries IH]; simpl; [discriminate|].
  intros H. apply orb_true_iff in H. unfold Wallets.xpub_only at 1.
  destruct k; simpl in H |- *; try (eexists; reflexivity);
    destruct H as [H|H]; try discriminate H;
    destruct (IH H) as [message ->]; eexists; reflexivity.
Qed.


(** X10.  The guard of lines 267-270: unless [keychains] is an array and [m]
    and [n] are numbers, [add] throws "invalid argument" and contacts
    nobody.  A numeric string does not pass for a number. *)
Theorem add_invalid_argument (params : value) (w : World) :
  validateParams (js_or params (VObj [])) [] ["label"; "enterprise"] = Ok tt ->
  is_array (Wallets.param params "keychains")
  && is_number (Wallets.param params "m")
  && is_number (Wallets.param params "n") = false ->
  Wallets.add params w = (Throw (Error "invalid argument"), w, []).
Proof.
  intros Hv Hguard. unfold Wallets.add. run_goal. rewrite Hv. run_goal.
  destruct (Wallets.param params "keychains");
    destruct (Wallets.param params "m");
    destruct (Wallets.param params "n");
    simpl in Hguard; try discriminate Hguard; reflexivity.
Qed.

(** X11.  A [null] or [undefined] entry among the keychains makes a 2-of-3
    [add] fail with a [TypeError] before anything is posted. *)
Theorem add_nullish_entry (params : value) (entries : list value) (w : World) :
  validateParams (js_or params (VObj [])) [] ["label"; "enterprise"] = Ok tt ->
  Wallets.param params "keychains" = VArr entries ->
  Wallets.param params "m" = VNum 2 ->
  Wallets.param params "n" = VNum 3 ->
  existsb is_nullish entries = true ->
  exists message,
    Wallets.add params w = (Throw (TypeError message), w, []).
Proof.
  intros Hv Hk Hm Hn Hnull. unfold Wallets.add. run_goal.
  rewrite Hv. run_goal. rewrite Hk, Hm, Hn. run_goal.
  change (negb (2 =? 2)%Z || negb (3 =? 3)%Z) with false. run_goal.
  destruct (map_xpub_only_nullish entries Hnull) as [message ->].
  exists message. reflexivity.
Qed.


(** X13.  What [add] sends is a fixed point of its own reduction: the objects
    built from the entries show the same [xpub]s, and reducing them again
    changes nothing. *)
Theorem add_reduction_idempotent (entries ks : list value) :
  Wallets.map_throwing Wallets.xpub_only entries = Ok ks ->
  Wallets.map_throwing Wallets.xpub_only ks = Ok ks
  /\ Forall2 Wallets.same_xpub entries ks.
Proof.
  intros H. apply map_xpub_only_shape in H.
  induction H as [|entry k entries ks (x & Hx & ->) _ [IH1 IH2]].
  - split; [reflexivity|constructor].
  - split.
    + simpl. rewrite IH1. reflexivity.
    + constructor; [|exact IH2].
      unfold Wallets.same_xpub. rewrite Hx. reflexivity.
Qed.

(** X14.  The request that [createWalletWithKeychains] builds is always a
    2-of-3 request that [add] lets through: once validated, [add] posts
    that very object, and never throws "invalid argument" or
    "unsupported multi-sig type" on it.  It carries [enterprise] exactly
    when the parameter is truthy. *)
Theorem add_accepts_created_request (label ux bx sx enterprise : value)
    (w : World) :
  let walletParams := Wallets.create_walletParams label ux bx sx enterprise in
  let answer := http_post (url "/wallet") (VObj walletParams) (remote w) in
  validateParams (VObj walletParams) [] ["label"; "enterprise"] = Ok tt ->
  Wallets.add (VObj walletParams) w
  = (match fst answer with
     | Ok data => Ok (Wallets.new_Wallet data)
     | Throw e => Throw e
     end,
     mkWorld (snd answer) (rng w), [EvPost (url "/wallet") (VObj walletParams)])
  /\ lookup "m" walletParams = VNum 2
  /\ lookup "n" walletParams = VNum 3
  /\ has_field "enterprise" walletParams = truthy enterprise.
Proof.
  intros walletParams answer Hv. split.
  - unfold walletParams. rewrite add_created. fold walletParams.
    run_goal. rewrite Hv. run_goal. fold answer.
    destruct answer as [[data|e] rem]; reflexivity.
  - unfold walletParams, Wallets.create_walletParams.
    destruct (truthy enterprise); repeat split; reflexivity.
Qed.

End AddEdges.

(** ** Creating a wallet: order and failure *)

Ltac open_create H :=
  unfold Wallets.createWalletWithKeychains, bitgo_encrypt, bitgo_keychains_add,
    bitgo_keychains_createBitGo in H.

Ltac run_create_paths H :=
  run_in H;
  repeat (first [ rewrite bind_keychains_create in H
                | rewrite bind_add_created in H
                | run_case H ];
          run_in H);
  cbn [logged app] in H; cbn [remote rng] in *.

Section CreateEdges.
Context {C : Collaborators}.


(** X16.  Nothing is undone.  When both keychains have been registered and the
    run stops at the creation of the service keychain (three calls, no
    wallet POST), the call fails, yet both registrations were answered
    successfully and the service is left in the state they and the
    failed step produced. *)
Theorem createWallet_no_rollback (params : value) (w w' : World)
    (r : result Wallets.Created) (t : list event) (key1 key2 : value) :
  Wallets.createWalletWithKeychains params w = (r, w', t) ->
  network_calls t
  = [EvKeychainsAdd key1; EvKeychainsAdd key2; EvKeychainsCreateBitGo] ->
  exists e k1 rem1 k2 rem2 r3,
    r = Throw e
    /\ keychains_add key1 (remote w) = (Ok k1, rem1)
    /\ keychains_add key2 rem1 = (Ok k2, rem2)
    /\ keychains_createBitGo rem2 = (r3, remote w').
Proof.
  intros H Hnet. open_create H. run_create_paths H.
  all: injection H as <- <- <-.
  all: cbn [network_calls filter is_network] in Hnet.
  all: try discriminate Hnet.
  all: injection Hnet as <- <-.
  all: do 6 eexists.
  all: split; [reflexivity|]; split; [eassumption|]; split; eassumption.
Qed.

End CreateEdges.

(** ** Reading: the directory of wallets and of shares *)

Section Reads.
Context {C : Collaborators}.





Lemma lookup_absent (fields : obj) (k : string) :
  has_field k fields = false -> lookup k fields = VUndefined.
Proof.
  induction fields as [|[k' v] fields IH]; simpl; [reflexivity|].
  intros H. apply orb_false_iff in H. destruct H as [-> H]. exact (IH H).
Qed.

(** X1.  The four reading operations never write and never touch key
    material: each leaves the world as it found it and issues at most
    one call, the GET of its own address. *)
Theorem reads_never_write (params : value) (w : World) :
  fetch_only w (url "/wallet") (Wallets.list params w)
  /\ fetch_only w (url "/walletshare") (Wallets.listShares params w)
  /\ fetch_only w
       (Wallets.walletshare_url (Wallets.param params "walletShareId"))
       (Wallets.getShare params w)
  /\ fetch_only w (url ("/wallet/" ++ to_string (Wallets.param params "id")))
       (Wallets.get params w).
Proof.
  unfold fetch_only.
  split; [|split; [|split]].
  - destruct (Wallets.list params w) as [[r w'] t] eqn:H.
    unfold Wallets.list, bitgo_get in H. run_paths H.
    all: injection H as <- <- <-; simpl; split; [reflexivity|].
    all: first [ left; split; [reflexivity | eexists; reflexivity]
               | right; reflexivity ].
  - destruct (Wallets.listShares params w) as [[r w'] t] eqn:H.
    unfold Wallets.listShares, bitgo_get in H. run_paths H.
    all: injection H as <- <- <-; simpl; split; [reflexivity|].
    all: first [ left; split; [reflexivity | eexists; reflexivity]
               | right; reflexivity ].
  - destruct (Wallets.getShare params w) as [[r w'] t] eqn:H.
    unfold Wallets.getShare, bitgo_get in H. run_paths H.
    all: injection H as <- <- <-; simpl; split; [reflexivity|].
    all: first [ left; split; [reflexivity | eexists; reflexivity]
               | right; reflexivity ].
  - destruct (Wallets.get params w) as [[r w'] t] eqn:H.
    unfold Wallets.get, bitgo_get in H. run_paths H.
    all: injection H as <- <- <-; simpl; split; [reflexivity|].
    all: first [ left; split; [reflexivity | eexists; reflexivity]
               | right; reflexivity ].
Qed.


(** X3.  An answer that is not [null] or [undefined] and has no [wallets] --
    an empty object, an error page, a number -- gives the empty result,
    not an error; a [null] or [undefined] answer is a [TypeError]. *)
Theorem list_without_wallets (params body : value) (w : World) :
  validateParams (js_or params (VObj [])) [] [] = Ok tt ->
  http_get (url "/wallet") (remote w) = Ok body ->
  has_own body "wallets" = false ->
  if is_nullish body
  then exists message,
         Wallets.list params w
         = (Throw (TypeError message), w, [EvGet (url "/wallet")])
  else Wallets.list params w = (Ok [], w, [EvGet (url "/wallet")]).
Proof.
  intros Hv Hget Hown. unfold Wallets.list, bitgo_get. run_goal.
  rewrite Hv. run_goal. rewrite Hget. run_goal.
  destruct body; simpl; try (eexists; reflexivity); try reflexivity.
  simpl in Hown. rewrite (lookup_absent _ _ Hown). reflexivity.
Qed.

End Reads.

(** ** The concrete sessions at work, again *)

Section MockSessionEdges.

Lemma acceptShare_network_shape_witness :
  exists body,
    network_calls (snd (Mock.accept Mock.accept_spend))
    = [EvGet (Mock.mock_url "/walletshare/share2"); EvGetECDHSharingKeychain;
       EvPost (Mock.mock_url "/walletshare/share2") body].
Proof.
  destruct (Mock.accept Mock.accept_spend) as [[r w'] t] eqn:Hrun.
  destruct (acceptShare_network_shape (C := Mock.session) Mock.accept_spend
              Mock.world0 w' r t Hrun) as [H|[H|[H|[[body H]|[body H]]]]].
  all: vm_compute in Hrun; injection Hrun as _ _ <-.
  all: try discriminate H.
  exists body. exact H.
Defined.

Lemma acceptShare_view_ignores_credentials_witness :
  Mock.accept Mock.accept_view
  = Mock.accept MockDirectory.accept_view_with_passwords.
Proof.
  exact (acceptShare_view_ignores_credentials (C := Mock.session)
           Mock.accept_view MockDirectory.accept_view_with_passwords
           Mock.share_view Mock.world0 eq_refl eq_refl eq_refl eq_refl).
Defined.

Lemma acceptShare_falsy_password_witness :
  Mock.accept MockDirectory.accept_spend_empty_password
  = (Throw (Error "userPassword param must be provided to decrypt shared key"),
     Mock.world0, [EvGet (Mock.mock_url "/walletshare/share2")]).
Proof.
  exact (acceptShare_falsy_password (C := Mock.session)
           MockDirectory.accept_spend_empty_password Mock.share_spend
           "spend,view" Mock.world0 eq_refl eq_refl eq_refl eq_refl
           ltac:(discriminate) eq_refl).
Defined.

Lemma acceptShare_posts_iff_view_witness :
  exists u body, In (EvPost u body) (snd (Mock.accept Mock.accept_view)).
Proof.
  exact (proj2 (acceptShare_posts_iff_view (C := Mock.session)
                  Mock.accept_view Mock.share_view "view" Mock.world0
                  eq_refl eq_refl eq_refl eq_refl eq_refl) eq_refl).
Defined.

Lemma acceptShare_malformed_share_witness :
  exists message,
    Wallets.acceptShare (C := MockDirectory.session)
      MockDirectory.accept_share9
      (MockDirectory.fresh MockDirectory.session [] 0)
    = (Throw (TypeError message),
       MockDirectory.fresh MockDirectory.session [] 0,
       [EvGet (Mock.mock_url "/walletshare/share9")]).
Proof.
  refine (acceptShare_malformed_share (C := MockDirectory.session)
            MockDirectory.accept_share9
            (VObj [("id", VStr "share9"); ("state", VStr "pending")])
            (MockDirectory.fresh MockDirectory.session [] 0)
            eq_refl eq_refl eq_refl _).
  intros s. discriminate.
Defined.


Lemma add_invalid_argument_witness :
  Mock.add MockDirectory.add_numeric_strings
  = (Throw (Error "invalid argument"), Mock.world0, []).
Proof.
  exact (add_invalid_argument (C := Mock.session)
           MockDirectory.add_numeric_strings Mock.world0 eq_refl eq_refl).
Defined.

Lemma add_nullish_entry_witness :
  exists message,
    Mock.add MockDirectory.add_with_null
    = (Throw (TypeError message), Mock.world0, []).
Proof.
  exact (add_nullish_entry (C := Mock.session) MockDirectory.add_with_null
           [VObj [("xpub", VStr "xpubA")]; VNull] Mock.world0
           eq_refl eq_refl eq_refl eq_refl eq_refl).
Defined.


Lemma add_reduction_idempotent_witness :
  Wallets.map_throwing Wallets.xpub_only
    [VObj [("xpub", VStr "xpubA")]; VObj [("xpub", VStr "xpubB")]]
  = Ok [VObj [("xpub", VStr "xpubA")]; VObj [("xpub", VStr "xpubB")]].
Proof.
  exact (proj1 (add_reduction_idempotent
                  [VObj [("xpub", VStr "xpubA"); ("xprv", VStr "xprvA")];
                   VObj [("xpub", VStr "xpubB")]]
                  [VObj [("xpub", VStr "xpubA")]; VObj [("xpub", VStr "xpubB")]]
                  eq_refl)).
Defined.

Lemma add_accepts_created_request_witness :
  snd (Mock.add
         (VObj (Wallets.create_walletParams (VStr "L") (VStr "xpub0")
                  (VStr "xpub2") (VStr "xpubBITGO") (VStr "acme"))))
  = [EvPost (Mock.mock_url "/wallet")
       (VObj [("label", VStr "L"); ("m", VNum 2); ("n", VNum 3);
              ("keychains",
               VArr [VObj [("xpub", VStr "xpub0")];
                     VObj [("xpub", VStr "xpub2")];
                     VObj [("xpub", VStr "xpubBITGO")]]);
              ("enterprise", VStr "acme")])].
Proof.
  unfold Mock.add.
  rewrite (proj1 (add_accepts_created_request (C := Mock.session)
                    (VStr "L") (VStr "xpub0") (VStr "xpub2")
                    (VStr "xpubBITGO") (VStr "acme") Mock.world0 eq_refl)).
  reflexivity.
Defined.


Lemma createWallet_no_rollback_witness :
  exists e w' t,
    Wallets.createWalletWithKeychains (C := MockDirectory.outage)
      Mock.create_params (MockDirectory.fresh MockDirectory.outage [] 0)
    = (Throw e, w', t)
    /\ remote w'
       = [("/keychain", VObj [("xpub", VStr "xpub2")]);
          ("/keychain",
           VObj [("xpub", VStr "xpub0");
                 ("encryptedXprv", VStr (Mock.seal "p@ss" "xprv0"))])].
Proof.
  destruct (Wallets.createWalletWithKeychains (C := MockDirectory.outage)
              Mock.create_params
              (MockDirectory.fresh MockDirectory.outage [] 0))
    as [[r w'] t] eqn:Hrun.
  destruct (createWallet_no_rollback (C := MockDirectory.outage)
              Mock.create_params _ w' r t
              (VObj [("xpub", VStr "xpub0");
                     ("encryptedXprv", VStr (Mock.seal "p@ss" "xprv0"))])
              (VObj [("xpub", VStr "xpub2")]) Hrun)
    as (e & k1 & rem1 & k2 & rem2 & r3 & -> & _).
  - vm_compute in Hrun. injection Hrun as _ _ <-. reflexivity.
  - exists e, w', t. split; [reflexivity|].
    vm_compute in Hrun. injection Hrun as _ <- _. reflexivity.
Defined.


Lemma list_without_wallets_witness :
  Wallets.list (C := MockDirectory.blank) VUndefined
    (MockDirectory.fresh MockDirectory.blank [] 0)
  = (Ok [], MockDirectory.fresh MockDirectory.blank [] 0,
     [EvGet (Mock.mock_url "/wallet")]).
Proof.
  exact (list_without_wallets (C := MockDirectory.blank) VUndefined (VObj [])
           (MockDirectory.fresh MockDirectory.blank [] 0)
           eq_refl eq_refl eq_refl).
Defined.

End MockSessionEdges.
